(** * vsi2tif: batch conversion of .vsi files to .tif

    A shallow embedding of [src/vsi2tif.py]: the body of
    [MainWindow.run_conversion] (input validation, file discovery, the
    thread pool loop, the closing message box) and of
    [convert_vsi_to_tif] (path derivation, the try/except/finally around
    the codec calls).

    Conventions of the embedding.
    - Python [str] values are [string]s; comparison is lexicographic on
      the character codes, as Python compares [str].
    - The GUI, the JVM, the filesystem and the image codec are external:
      their calls are recorded as [event]s in a log, and their answers
      come from a [world] record the theorems quantify over.
    - An exception is a value [Raise e]; only subclasses of [Exception]
      are modelled (these are what [except Exception] catches).
    - [ThreadPoolExecutor] is modelled by a step relation whose
      interleavings are the schedules of the worker threads. *)

From Stdlib Require Import ZArith Lia Ascii Sorting.Sorted.
From stdpp Require Import gmap strings list relations.

Open Scope Z_scope.

(** ** Python string operations used by the program *)

Module PyStr.

Definition code (c : ascii) : nat := nat_of_ascii c.

(** [s1 <= s2] on [str]: lexicographic on character codes; a proper
    prefix is smaller. *)
Fixpoint leb (s1 s2 : string) : bool :=
  match s1, s2 with
  | EmptyString, _ => true
  | String _ _, EmptyString => false
  | String c1 r1, String c2 r2 =>
      if (code c1 <? code c2)%nat then true
      else if (code c2 <? code c1)%nat then false
      else leb r1 r2
  end.

Definition le (s1 s2 : string) : Prop := leb s1 s2 = true.

(** [s.startswith(p)] *)
Fixpoint startswith (s p : string) : bool :=
  match p, s with
  | EmptyString, _ => true
  | String _ _, EmptyString => false
  | String a p', String b s' => if decide (a = b) then startswith s' p' else false
  end.

(** [s.endswith(suf)]: the last [len(suf)] characters of [s] are [suf]. *)
Definition endswith (s suf : string) : bool :=
  let n := String.length s in
  let m := String.length suf in
  if (m <=? n)%nat then bool_decide (String.substring (n - m) m s = suf)
  else false.

(** [s.split(sep)] for a non-empty [sep]: cut at the occurrences of
    [sep] found scanning from the left, without overlap.  [skip] counts
    the characters of a separator still to be dropped, [acc] holds the
    current piece in reverse. *)
Fixpoint split_aux (sep : string) (skip : nat) (acc : list ascii)
                   (s : string) : list string :=
  match s with
  | EmptyString => [String.string_of_list_ascii (rev acc)]
  | String c r =>
      match skip with
      | S k => split_aux sep k acc r
      | O =>
          if startswith s sep
          then String.string_of_list_ascii (rev acc)
                 :: split_aux sep (String.length sep - 1) [] r
          else split_aux sep O (c :: acc) r
      end
  end.

Definition split (s sep : string) : list string := split_aux sep O [] s.

(** [os.path.join(a, b)] of [posixpath], two components. *)
Definition path_join (a b : string) : string :=
  if startswith b "/" then b
  else if bool_decide (a = "") || endswith a "/" then a +:+ b
  else a +:+ "/" +:+ b.

End PyStr.

(** ** Python's [int(text)] on a line-edit text

    Surrounding white space is dropped, an optional sign follows, then
    decimal digits, where single underscores may separate digits.  Only
    ASCII digits and ASCII white space are recognised here, and no limit
    is put on the number of digits: the function is [int()] on the texts
    that [plain_text] below describes. *)

Module PyInt.

Definition is_space (c : ascii) : bool :=
  let n := nat_of_ascii c in
  ((9 <=? n)%nat && (n <=? 13)%nat) || (n =? 32)%nat.

Definition digit_of (c : ascii) : option Z :=
  let n := nat_of_ascii c in
  if ((48 <=? n)%nat && (n <=? 57)%nat) then Some (Z.of_nat n - 48) else None.

Fixpoint lstrip (s : list ascii) : list ascii :=
  match s with
  | c :: r => if is_space c then lstrip r else s
  | [] => []
  end.

Definition strip (s : list ascii) : list ascii :=
  rev (lstrip (rev (lstrip s))).

(** [after_digit] tells whether the previous character was a digit:
    an underscore is legal only between two digits. *)
Fixpoint digits (acc : Z) (after_digit : bool) (s : list ascii) : option Z :=
  match s with
  | [] => if after_digit then Some acc else None
  | c :: r =>
      match digit_of c with
      | Some d => digits (10 * acc + d) true r
      | None =>
          if bool_decide (c = "_"%char) && after_digit
          then digits acc false r
          else None
      end
  end.

Definition parse (text : string) : option Z :=
  match strip (String.list_ascii_of_string text) with
  | c :: r =>
      if bool_decide (c = "-"%char) then Z.opp <$> digits 0 false r
      else if bool_decide (c = "+"%char) then digits 0 false r
      else digits 0 false (c :: r)
  | [] => None
  end.

End PyInt.

(** ** [sorted] on a list of [str]

    Python's [sorted] is stable; on strings, where equal keys are equal
    values, it is the insertion sort below. *)

Fixpoint insert_sorted (x : string) (l : list string) : list string :=
  match l with
  | [] => [x]
  | y :: r => if PyStr.leb x y then x :: l else y :: insert_sorted x r
  end.

Fixpoint sorted (l : list string) : list string :=
  match l with
  | [] => []
  | x :: r => insert_sorted x (sorted r)
  end.

(** ** The outside world *)

(** The message of an exception ([str(e)]). *)
Definition exn := string.

Inductive result (A : Type) : Type :=
| Ok (a : A)
| Raise (e : exn).
Arguments Ok {A} a.
Arguments Raise {A} e.

(** A [ValueError] of the validation code: the one [int()] raises for a
    text that is no integer literal, or one raised with a message. *)
Inductive value_error : Type :=
| InvalidLiteral (text : string)
| WithMessage (msg : string).

Inductive entry_kind : Type := RegularFile | Directory | OtherEntry.

Record dirent : Type := { d_name : string; d_kind : entry_kind }.

(** Java and Python objects the codec hands out are opaque handles. *)
Definition handle := nat.

Record world : Type := {
  (** the entries of a directory as [os.listdir] finds them, in the
      order it reports their names; [Raise] when it cannot be listed *)
  dir_entries : string -> result (list dirent);
  (** lines 117-120: [ImporterOptions()], its setters, [setId(image_url)] *)
  make_options : string -> result unit;
  (** [ij.io().open(image_url, options=...)] *)
  io_open : string -> result handle;
  (** [ij.py.from_java(jimage)] *)
  from_java : handle -> result handle;
  (** [image_array.values] *)
  array_values : handle -> result handle;
  (** [tiff.imwrite(save_url, image_array_np)] *)
  imwrite : string -> handle -> result unit
}.

(** [os.listdir(path)]: the names only. *)
Definition listdir (w : world) (path : string) : result (list string) :=
  match dir_entries w path with
  | Ok ents => Ok (d_name <$> ents)
  | Raise e => Raise e
  end.

(** What the program does to the outside, in order. *)
Inductive event : Type :=
| EvCritical (title prefix : string) (ve : value_error)
    (* QMessageBox.critical(self, title, f"{prefix}{ve}") *)
| EvInformation (title text : string)
    (* QMessageBox.information(self, title, text) *)
| EvAddOption (gigs : Z)          (* sj.config.add_option(f'-Xmx{gigs}g') *)
| EvImagejInit                    (* imagej.init('sc.fiji:fiji', mode='headless') *)
| EvListdir (folder : string)     (* os.listdir(folder) *)
| EvSubmit (file : string)        (* executor.submit(convert_vsi_to_tif, file, ...) *)
| EvProcessed (file : string)     (* print(f"Processed {file} successfully.") *)
| EvErrorProcessing (file : string) (e : exn)
    (* print(f"Error processing {file}: {e}") *)
| EvOptions (image_url : string)
| EvOpen (image_url : string)
| EvFromJava (jimage : handle)
| EvValues (image_array : handle)
| EvImwrite (save_url : string) (image_array_np : handle)
| EvSaved (save_url : string)     (* print(f"Image saved successfully to {save_url}.") *)
| EvErrorDuring (file : string) (e : exn)
    (* print(f"Error during conversion of {vsi_file}: {e}") *)
| EvGcCollect (bound : gset string).
    (* gc.collect(), with the names the frame still binds at that point *)

Global Instance value_error_eq_dec : EqDecision value_error.
Proof. solve_decision. Defined.
Global Instance result_eq_dec `{EqDecision A} : EqDecision (result A).
Proof. solve_decision. Defined.
Global Instance event_eq_dec : EqDecision event.
Proof. solve_decision. Defined.

(** ** One conversion task: [convert_vsi_to_tif] *)

(** The frame of a running task: the object-valued local variables the
    try block assigns ([jimage], [image_array], [image_array_np]) and the
    events emitted so far. *)
Record frame : Type := { locals : gmap string handle; out : list event }.

Module Task.

(** Computations in a frame that may raise. *)
Definition M (A : Type) : Type := frame -> result A * frame.

Definition ret {A} (a : A) : M A := fun fr => (Ok a, fr).

Definition bind {A B} (m : M A) (k : A -> M B) : M B :=
  fun fr =>
    match m fr with
    | (Ok a, fr1) => k a fr1
    | (Raise e, fr1) => (Raise e, fr1)
    end.

Notation "x <- m ;; k" := (bind m (fun x => k))
  (at level 100, m at next level, right associativity).
Notation "m ;;; k" := (bind m (fun _ => k))
  (at level 100, right associativity).

Definition emit (ev : event) : M unit :=
  fun fr => (Ok tt, {| locals := locals fr; out := out fr ++ [ev] |}).

(** A call to the outside: logged, then it returns or raises. *)
Definition call {A} (ev : event) (r : result A) : M A :=
  fun fr => (r, {| locals := locals fr; out := out fr ++ [ev] |}).

(** [name = v] *)
Definition assign (name : string) (v : handle) : M unit :=
  fun fr => (Ok tt, {| locals := <[name := v]> (locals fr); out := out fr |}).

(** [if 'name' in locals(): del name] *)
Definition del_if_bound (name : string) : M unit :=
  fun fr =>
    match locals fr !! name with
    | Some _ => (Ok tt, {| locals := delete name (locals fr); out := out fr |})
    | None => (Ok tt, fr)
    end.

Definition gc_collect : M unit :=
  fun fr => emit (EvGcCollect (dom (locals fr))) fr.

(** [try: m  except Exception as e: h e] *)
Definition try_except {A} (m : M A) (h : exn -> M A) : M A :=
  fun fr =>
    match m fr with
    | (Ok a, fr1) => (Ok a, fr1)
    | (Raise e, fr1) => h e fr1
    end.

(** [try: m  finally: fin]; an exception of [fin] replaces the outcome
    of [m]. *)
Definition try_finally {A} (m : M A) (fin : M unit) : M A :=
  fun fr =>
    match m fr with
    | (r, fr1) =>
        match fin fr1 with
        | (Ok _, fr2) => (r, fr2)
        | (Raise e, fr2) => (Raise e, fr2)
        end
    end.

End Task.

Import Task.

(** [vsi_file.split('.vsi')[0] + '.tif']; [split] never returns the empty
    list, so the index 0 always exists. *)
Definition tif_name (vsi_file : string) : string :=
  default "" (PyStr.split vsi_file ".vsi" !! 0%nat) +:+ ".tif".

Definition convert_vsi_to_tif (w : world) (vsi_file vsi_folder tif_folder : string)
  : M unit :=
  let image_url := PyStr.path_join vsi_folder vsi_file in
  let save_url := PyStr.path_join tif_folder (tif_name vsi_file) in
  call (EvOptions image_url) (make_options w image_url) ;;;
  try_finally
    (try_except
       (jimage <- call (EvOpen image_url) (io_open w image_url) ;;
        assign "jimage" jimage ;;;
        image_array <- call (EvFromJava jimage) (from_java w jimage) ;;
        assign "image_array" image_array ;;;
        image_array_np <- call (EvValues image_array) (array_values w image_array) ;;
        assign "image_array_np" image_array_np ;;;
        call (EvImwrite save_url image_array_np) (imwrite w save_url image_array_np) ;;;
        emit (EvSaved save_url))
       (fun e => emit (EvErrorDuring vsi_file e)))
    (del_if_bound "image_array" ;;;
     del_if_bound "jimage" ;;;
     gc_collect).

(** A task as a worker thread runs it: in a fresh frame. *)
Definition run_task (w : world) (vsi_folder tif_folder vsi_file : string)
  : result unit * frame :=
  convert_vsi_to_tif w vsi_file vsi_folder tif_folder {| locals := ∅; out := [] |}.

(** ** The thread pool of [run_conversion]

    [ThreadPoolExecutor(max_workers=n)] keeps a queue of submitted work
    items and at most [n] worker threads; each thread takes one item at
    a time from the queue and runs it to its end.  [submit] starts a new
    thread only while fewer than [n] exist, and always when none exists.
    A future is identified with the file it was submitted for (the dict
    [futures] maps it back to that file). *)

Record pool : Type := {
  to_submit : list string;
    (* files the dict comprehension has not reached yet *)
  work_queue : list string;
    (* submitted, not yet taken by a worker *)
  threads : list (option string);
    (* the worker threads: [Some f] runs the task of [f], [None] waits *)
  done_futures : list (string * result unit);
    (* finished futures that [as_completed] has not yielded yet *)
  results : list (string * result unit);
    (* what the [for] loop has consumed, in order *)
  log : list event;
  completed : bool
    (* the "Completion" box has been shown *)
}.

Definition running (s : pool) : list string := omap id (threads s).

(** Number of tasks in flight. *)
Definition in_flight (s : pool) : nat := length (running s).

Definition init_pool (log0 : list event) (vsi_files : list string) : pool :=
  {| to_submit := vsi_files; work_queue := []; threads := [];
     done_futures := []; results := []; log := log0; completed := false |}.

(** [executor.submit(convert_vsi_to_tif, file, ...)] *)
Definition do_submit (spawn : bool) (f : string) (rest : list string) (s : pool) : pool :=
  {| to_submit := rest;
     work_queue := work_queue s ++ [f];
     threads := if spawn then threads s ++ [None] else threads s;
     done_futures := done_futures s; results := results s;
     log := log s ++ [EvSubmit f]; completed := completed s |}.

(** Worker [i] takes the head of the queue. *)
Definition do_take (i : nat) (f : string) (q : list string) (s : pool) : pool :=
  {| to_submit := to_submit s;
     work_queue := q;
     threads := <[i := Some f]> (threads s);
     done_futures := done_futures s; results := results s;
     log := log s; completed := completed s |}.

(** Worker [i] ends the task of [f]: the future gets the outcome of
    [convert_vsi_to_tif], whose output goes to the log.  The output of
    one task is kept together; how the lines of tasks that overlap in
    time interleave is not distinguished. *)
Definition do_finish (w : world) (vsi_folder tif_folder : string)
    (i : nat) (f : string) (s : pool) : pool :=
  let '(r, fr) := run_task w vsi_folder tif_folder f in
  {| to_submit := to_submit s;
     work_queue := work_queue s;
     threads := <[i := None]> (threads s);
     done_futures := done_futures s ++ [(f, r)]; results := results s;
     log := log s ++ out fr; completed := completed s |}.

(** The body of the [for future in as_completed(futures)] loop. *)
Definition notify (x : string * result unit) : event :=
  match x.2 with
  | Ok _ => EvProcessed x.1
  | Raise e => EvErrorProcessing x.1 e
  end.

Definition do_yield (l1 : list (string * result unit)) (x : string * result unit)
    (l2 : list (string * result unit)) (s : pool) : pool :=
  {| to_submit := to_submit s; work_queue := work_queue s; threads := threads s;
     done_futures := l1 ++ l2; results := results s ++ [x];
     log := log s ++ [notify x]; completed := completed s |}.

Definition completion : event :=
  EvInformation "Completion" "All conversions completed.".

Definition do_complete (s : pool) : pool :=
  {| to_submit := to_submit s; work_queue := work_queue s; threads := threads s;
     done_futures := done_futures s; results := results s;
     log := log s ++ [completion]; completed := true |}.

Section Pool.

Variable w : world.
Variable max_workers : Z.
Variables vsi_folder tif_folder : string.

Inductive step : pool -> pool -> Prop :=
| step_submit s f rest (spawn : bool) :
    to_submit s = f :: rest ->
    (spawn = true -> Z.of_nat (length (threads s)) < max_workers) ->
    (threads s = [] -> spawn = true) ->
    step s (do_submit spawn f rest s)
| step_take s i f q :
    threads s !! i = Some None ->
    work_queue s = f :: q ->
    step s (do_take i f q s)
| step_finish s i f :
    threads s !! i = Some (Some f) ->
    step s (do_finish w vsi_folder tif_folder i f s)
| step_yield s l1 x l2 :
    to_submit s = [] ->
    done_futures s = l1 ++ x :: l2 ->
    step s (do_yield l1 x l2 s)
| step_complete s :
    to_submit s = [] -> work_queue s = [] -> running s = [] ->
    done_futures s = [] -> completed s = false ->
    step s (do_complete s).

Definition steps : pool -> pool -> Prop := rtc step.

(** Work left: bounds the length of every schedule. *)
Definition work_left (s : pool) : nat :=
  4 * length (to_submit s) + 3 * length (work_queue s)
  + 2 * in_flight s + length (done_futures s)
  + (if completed s then 0 else 1).

End Pool.

(** ** [MainWindow.run_conversion] *)

(** The four line edits of the window. *)
Record form : Type := {
  vsi_folder_entry : string;
  tif_folder_entry : string;
  memory_entry : string;
  process_entry : string
}.

(** [int(text) if text else dflt]; [None] is the [ValueError] of [int]. *)
Definition entry_value (text : string) (dflt : Z) : option Z :=
  if bool_decide (text = "") then Some dflt else PyInt.parse text.

(** The body of one [try]: the value of the entry, then the check
    [<= 0]; either failure is a [ValueError]. *)
Definition positive_int (text : string) (dflt : Z) (complaint : string)
  : Z + value_error :=
  match entry_value text dflt with
  | None => inr (InvalidLiteral text)
  | Some n => if n <=? 0 then inr (WithMessage complaint) else inl n
  end.

Definition is_vsi (f : string) : bool := PyStr.endswith f ".vsi".

(** [sorted([f for f in names if f.endswith('.vsi')])] *)
Definition discover (names : list string) : list string :=
  sorted (List.filter is_vsi names).

Definition no_files : event :=
  EvInformation "No Files" "No VSI files found in the selected folder.".

(** How far the handler gets before the pool takes over. *)
Inductive run_start : Type :=
| Stopped (log0 : list event)            (* the handler returned *)
| Crashed (log0 : list event) (e : exn)  (* an exception left the handler *)
| Running (max_workers : Z) (s0 : pool). (* the [with] block is entered *)

Definition run_conversion_begin (w : world) (ui : form) : run_start :=
  match positive_int (memory_entry ui) 28 "Memory must be a positive integer." with
  | inr ve => Stopped [EvCritical "Input Error" "Invalid memory input: " ve]
  | inl gigs_of_memory =>
      match positive_int (process_entry ui) 2 "Processes must be a positive integer." with
      | inr ve => Stopped [EvCritical "Input Error" "Invalid process input: " ve]
      | inl max_workers =>
          let log0 := [EvAddOption gigs_of_memory; EvImagejInit;
                       EvListdir (vsi_folder_entry ui)] in
          match listdir w (vsi_folder_entry ui) with
          | Raise e => Crashed log0 e
          | Ok names =>
              let vsi_files := discover names in
              match vsi_files with
              | [] => Stopped (log0 ++ [no_files])
              | _ :: _ => Running max_workers (init_pool log0 vsi_files)
              end
          end
      end
  end.

(** The logs of the complete runs of the handler. *)
Inductive run_conversion (w : world) (ui : form) : list event -> Prop :=
| run_stopped log0 :
    run_conversion_begin w ui = Stopped log0 ->
    run_conversion w ui log0
| run_crashed log0 e :
    run_conversion_begin w ui = Crashed log0 e ->
    run_conversion w ui log0
| run_pool n s0 sf :
    run_conversion_begin w ui = Running n s0 ->
    steps w n (vsi_folder_entry ui) (tif_folder_entry ui) s0 sf ->
    completed sf = true ->
    run_conversion w ui (log sf).

(** Observations on a log. *)
Definition is_notification (ev : event) : bool :=
  match ev with EvProcessed _ | EvErrorProcessing _ _ => true | _ => false end.
Definition is_success (ev : event) : bool :=
  match ev with EvProcessed _ => true | _ => false end.
Definition is_failure (ev : event) : bool :=
  match ev with EvErrorProcessing _ _ => true | _ => false end.
Definition is_completion (ev : event) : bool := bool_decide (ev = completion).
Definition is_critical (ev : event) : bool :=
  match ev with EvCritical _ _ _ => true | _ => false end.
(** Filesystem access, JVM or codec start-up, task submission. *)
Definition is_work (ev : event) : bool :=
  match ev with
  | EvCritical _ _ _ | EvInformation _ _ => false
  | _ => true
  end.

Definition notifications (l : list event) : list event :=
  List.filter is_notification l.
Definition submitted (l : list event) : list string :=
  omap (fun ev => match ev with EvSubmit f => Some f | _ => None end) l.
Definition notified (l : list event) : list string :=
  omap (fun ev => match ev with
                  | EvProcessed f | EvErrorProcessing f _ => Some f
                  | _ => None end) l.
Definition count (p : event -> bool) (l : list event) : nat :=
  length (List.filter p l).

(** Events a task emits are its own: no submission, no notification of
    the loop, no message box. *)
Definition task_event (ev : event) : bool :=
  match ev with
  | EvOptions _ | EvOpen _ | EvFromJava _ | EvValues _ | EvImwrite _ _
  | EvSaved _ | EvErrorDuring _ _ | EvGcCollect _ => true
  | _ => false
  end.

(** ** Invariant of the pool *)

(** Every discovered file is at exactly one place. *)
Definition tokens (s : pool) : list string :=
  to_submit s ++ work_queue s ++ running s
    ++ (done_futures s).*1 ++ (results s).*1.

Record pool_inv (w : world) (max_workers : Z) (vsi_folder tif_folder : string)
    (files : list string) (s : pool) : Prop := {
  inv_threads : Z.of_nat (length (threads s)) <= max_workers;
  inv_tokens : tokens s ≡ₚ files;
  inv_outcomes :
    forall x, x ∈ done_futures s ++ results s ->
              x.2 = (run_task w vsi_folder tif_folder x.1).1;
  inv_output :
    forall x ev, x ∈ done_futures s ++ results s ->
                 ev ∈ out (run_task w vsi_folder tif_folder x.1).2 -> ev ∈ log s;
  inv_queue : threads s = [] -> work_queue s = [];
  inv_submitted : submitted (log s) ++ to_submit s = files;
  inv_notified : notifications (log s) = notify <$> results s;
  inv_completion :
    if completed s
    then to_submit s = [] /\ work_queue s = [] /\ running s = []
         /\ done_futures s = []
         /\ exists pre, log s = pre ++ [completion] /\ count is_completion pre = 0%nat
    else count is_completion (log s) = 0%nat
}.

(** ** Sample inputs *)

Definition sample_form (memory processes : string) : form :=
  {| vsi_folder_entry := "/in"; tif_folder_entry := "/out";
     memory_entry := memory; process_entry := processes |}.

(** A world whose folder [/in] has the entries [ents] and whose codec
    cannot open the file at [bad]. *)
Definition sample_world (ents : list dirent) (bad : string) : world :=
  {| dir_entries p :=
       if bool_decide (p = "/in") then Ok ents
       else Raise "No such file or directory";
     make_options _ := Ok tt;
     io_open url := if bool_decide (url = bad) then Raise "corrupt" else Ok 1%nat;
     from_java _ := Ok 2%nat;
     array_values _ := Ok 3%nat;
     imwrite _ _ := Ok tt |}.

Definition file (name : string) : dirent :=
  {| d_name := name; d_kind := RegularFile |}.
Definition folder (name : string) : dirent :=
  {| d_name := name; d_kind := Directory |}.

(** [/in] holds [b.vsi] and [a.vsi]; the codec cannot open [a.vsi]. *)
Definition two_files_world : world :=
  sample_world [file "b.vsi"; file "a.vsi"] "/in/a.vsi".

(** [/in] holds no [.vsi] entry. *)
Definition no_vsi_world : world := sample_world [file "notes.txt"] "".

(** [/in] holds a sub-directory named [scans.vsi] next to a file. *)
Definition subdir_world : world :=
  sample_world [folder "scans.vsi"; file "a.vsi"] "".

(** ** The rest of the window *)


(** [browse_vsi_folder], where [folder] is what
    [QFileDialog.getExistingDirectory] returned (the empty string when
    the dialog was cancelled): [if folder: self.vsi_folder_entry.setText(folder)]. *)
Definition browse_vsi_folder (folder : string) (ui : form) : form :=
  if bool_decide (folder = "") then ui
  else {| vsi_folder_entry := folder; tif_folder_entry := tif_folder_entry ui;
          memory_entry := memory_entry ui; process_entry := process_entry ui |}.


(** ** More observations on logs *)

Definition is_box (ev : event) : bool :=
  match ev with EvCritical _ _ _ | EvInformation _ _ => true | _ => false end.

(** Configuring and starting the JVM, listing the folder. *)
Definition is_setup (ev : event) : bool :=
  match ev with EvAddOption _ | EvImagejInit | EvListdir _ => true | _ => false end.

Definition is_submit (ev : event) : bool :=
  match ev with EvSubmit _ => true | _ => false end.
Definition is_saved (ev : event) : bool :=
  match ev with EvSaved _ => true | _ => false end.
Definition is_error_during (ev : event) : bool :=
  match ev with EvErrorDuring _ _ => true | _ => false end.
Definition is_imwrite (ev : event) : bool :=
  match ev with EvImwrite _ _ => true | _ => false end.
Definition is_gc (ev : event) : bool :=
  match ev with EvGcCollect _ => true | _ => false end.

(** What the pool can add to the log. *)
Definition pool_event (ev : event) : bool :=
  task_event ev || is_submit ev || is_notification ev || is_completion ev.

(** The paths tasks were started on, in the order of the log. *)
Definition started (l : list event) : list string :=
  omap (fun ev => match ev with EvOptions url => Some url | _ => None end) l.

(** The paths written to, in the order of the log. *)
Definition written (l : list event) : list string :=
  omap (fun ev => match ev with EvImwrite url _ => Some url | _ => None end) l.

(** The importer options of a file cannot be built (lines 117-120). *)
Definition options_fail (w : world) (vsi_folder f : string) : bool :=
  match make_options w (PyStr.path_join vsi_folder f) with
  | Ok _ => false
  | Raise _ => true
  end.

(** [.vsi] occurs in [base +:+ ".vsi"] only as the final suffix. *)
Definition single_suffix (base : string) : Prop :=
  forall p1 p2, base = p1 +:+ p2 -> p2 <> "" ->
                PyStr.startswith (p2 +:+ ".vsi") ".vsi" = false.

(** [/in] holds [b.vsi] and [a.vsi]; the options of [a.vsi] cannot be
    built, every other call succeeds. *)
Definition bad_options_world : world :=
  {| dir_entries p :=
       if bool_decide (p = "/in") then Ok [file "b.vsi"; file "a.vsi"]
       else Raise "No such file or directory";
     make_options url :=
       if bool_decide (url = "/in/a.vsi") then Raise "no reader" else Ok tt;
     io_open _ := Ok 1%nat;
     from_java _ := Ok 2%nat;
     array_values _ := Ok 3%nat;
     imwrite _ _ := Ok tt |}.

(** The decode of a task, as the try block chains it: open, convert to
    Python, take the values. *)
Definition decoded (w : world) (image_url : string) : result handle :=
  match io_open w image_url with
  | Raise e => Raise e
  | Ok jimage =>
      match from_java w jimage with
      | Raise e => Raise e
      | Ok image_array => array_values w image_array
      end
  end.

(** A check of [single_suffix] by running through the suffixes. *)
Definition no_inner_vsi (base : string) : bool :=
  forallb
    (fun k => negb (PyStr.startswith
                      (String.substring (String.length base - k) k base +:+ ".vsi")
                      ".vsi"))
    (seq 1 (String.length base)).

(** What an observation [obs] sees of the task of [f]. *)
Definition observed {A : Type} (obs : event -> option A)
    (w : world) (vsi_folder tif_folder f : string) : list A :=
  omap obs (out (run_task w vsi_folder tif_folder f).2).

(** The files whose task has ended. *)
Definition finished (s : pool) : list string :=
  (done_futures s ++ results s).*1.

(** With one worker, the tasks that have ended, the running one, the
    queue and the files still to submit make up the sorted sequence, in
    this order, and the log shows the starts of the ended ones. *)
Definition in_order (vsi_folder : string) (files base : list string)
    (s : pool) : Prop :=
  (length (threads s) <= 1)%nat
  /\ exists fin,
       fin ++ running s ++ work_queue s ++ to_submit s = files
       /\ started (log s) = base ++ (PyStr.path_join vsi_folder <$> fin).

(** The texts on which [PyInt.parse] is Python's [int()]: ASCII
    characters only (no digit or white space of another script), and at
    most 4300 characters, the number of digits up to which CPython
    converts by default. *)
Definition plain_text (text : string) : bool :=
  forallb (fun c => (nat_of_ascii c <? 128)%nat) (String.list_ascii_of_string text)
  && (String.length text <=? 4300)%nat.

(** What the loop of [run_conversion] prints for a file, as the option
    set-up of its task decides it. *)
Definition loop_report (w : world) (vsi_folder f : string) : event :=
  match make_options w (PyStr.path_join vsi_folder f) with
  | Ok _ => EvProcessed f
  | Raise e => EvErrorProcessing f e
  end.

(** ** The handler with a JVM that may fail to start

    [run_conversion_begin] is the handler where lines 91 and 92 return.
    Here the outcomes of [sj.config.add_option] and of [imagej.init] are
    given; neither call is inside a [try], so an exception of either
    leaves the handler. *)
Record jvm : Type := {
  add_option_result : result unit;   (* sj.config.add_option(...) *)
  init_result : result unit          (* imagej.init(...) *)
}.

Definition run_conversion_handler (j : jvm) (w : world) (ui : form) : run_start :=
  match positive_int (memory_entry ui) 28 "Memory must be a positive integer." with
  | inr ve => Stopped [EvCritical "Input Error" "Invalid memory input: " ve]
  | inl gigs_of_memory =>
      match positive_int (process_entry ui) 2 "Processes must be a positive integer." with
      | inr ve => Stopped [EvCritical "Input Error" "Invalid process input: " ve]
      | inl max_workers =>
          match add_option_result j with
          | Raise e => Crashed [EvAddOption gigs_of_memory] e
          | Ok _ =>
              match init_result j with
              | Raise e => Crashed [EvAddOption gigs_of_memory; EvImagejInit] e
              | Ok _ =>
                  let log0 := [EvAddOption gigs_of_memory; EvImagejInit;
                               EvListdir (vsi_folder_entry ui)] in
                  match listdir w (vsi_folder_entry ui) with
                  | Raise e => Crashed log0 e
                  | Ok names =>
                      let vsi_files := discover names in
                      match vsi_files with
                      | [] => Stopped (log0 ++ [no_files])
                      | _ :: _ => Running max_workers (init_pool log0 vsi_files)
                      end
                  end
              end
          end
      end
  end.

(** The logs of the complete runs of this handler. *)
Inductive handler_run (j : jvm) (w : world) (ui : form) : list event -> Prop :=
| handler_stopped log0 :
    run_conversion_handler j w ui = Stopped log0 ->
    handler_run j w ui log0
| handler_crashed log0 e :
    run_conversion_handler j w ui = Crashed log0 e ->
    handler_run j w ui log0
| handler_pool n s0 sf :
    run_conversion_handler j w ui = Running n s0 ->
    steps w n (vsi_folder_entry ui) (tif_folder_entry ui) s0 sf ->
    completed sf = true ->
    handler_run j w ui (log sf).

(** A JVM that starts. *)
Definition jvm_ok : jvm := {| add_option_result := Ok tt; init_result := Ok tt |}.

(** * Properties *)

(** ** The model on sample inputs *)

Example split_plain : PyStr.split "scan01.vsi" ".vsi" = ["scan01"; ""].
Proof. reflexivity. Qed.
Example split_none : PyStr.split "scan01" ".vsi" = ["scan01"].
Proof. reflexivity. Qed.
Example split_twice : PyStr.split "a.vsi.b.vsi" ".vsi" = ["a"; ".b"; ""].
Proof. reflexivity. Qed.
Example split_overlap : PyStr.split "aaaa" "aa" = [""; ""; ""].
Proof. reflexivity. Qed.
Example endswith_yes : PyStr.endswith "A.vsi" ".vsi" = true.
Proof. reflexivity. Qed.
Example endswith_short : PyStr.endswith "vsi" ".vsi" = false.
Proof. reflexivity. Qed.
Example join_plain : PyStr.path_join "/out" "a.tif" = "/out/a.tif".
Proof. reflexivity. Qed.
Example join_slash : PyStr.path_join "/out/" "a.tif" = "/out/a.tif".
Proof. reflexivity. Qed.
Example join_empty : PyStr.path_join "" "a.tif" = "a.tif".
Proof. reflexivity. Qed.
Example int_28 : PyInt.parse " 28 " = Some 28.
Proof. reflexivity. Qed.
Example int_neg : PyInt.parse "-1" = Some (-1).
Proof. reflexivity. Qed.
Example int_us : PyInt.parse "1_000" = Some 1000.
Proof. reflexivity. Qed.
Example int_bad : PyInt.parse "1__0" = None /\ PyInt.parse "2g" = None /\ PyInt.parse " " = None.
Proof. repeat split; reflexivity. Qed.

Example begin_defaults :
  run_conversion_begin two_files_world (sample_form "" "")
  = Running 2 (init_pool [EvAddOption 28; EvImagejInit; EvListdir "/in"]
                 ["a.vsi"; "b.vsi"]).
Proof. reflexivity. Qed.
Example begin_bad_memory :
  run_conversion_begin two_files_world (sample_form "lots" "2")
  = Stopped [EvCritical "Input Error" "Invalid memory input: "
               (InvalidLiteral "lots")].
Proof. reflexivity. Qed.
Example begin_bad_folder :
  run_conversion_begin two_files_world
    {| vsi_folder_entry := "/nowhere"; tif_folder_entry := "/out";
       memory_entry := "4"; process_entry := "1" |}
  = Crashed [EvAddOption 4; EvImagejInit; EvListdir "/nowhere"]
      "No such file or directory".
Proof. reflexivity. Qed.
Example task_unreadable :
  (run_task two_files_world "/in" "/out" "a.vsi").1 = Ok tt
  /\ out (run_task two_files_world "/in" "/out" "a.vsi").2
     = [EvOptions "/in/a.vsi"; EvOpen "/in/a.vsi";
        EvErrorDuring "a.vsi" "corrupt"; EvGcCollect ∅].
Proof. split; reflexivity. Qed.
(** After a successful conversion the two deleted names are gone;
    [image_array_np], which the [finally] clause does not mention, stays
    bound until the frame is dropped. *)
Example task_converted :
  let fr := (run_task two_files_world "/in" "/out" "b.vsi").2 in
  locals fr = {["image_array_np" := 3%nat]}
  /\ out fr = [EvOptions "/in/b.vsi"; EvOpen "/in/b.vsi"; EvFromJava 1%nat;
               EvValues 2%nat; EvImwrite "/out/b.tif" 3%nat;
               EvSaved "/out/b.tif"; EvGcCollect {["image_array_np"]}].
Proof. split; vm_compute; reflexivity. Qed.

(** ** Strings *)

Section StringFacts.

Lemma str_length_app (a b : string) :
  String.length (a +:+ b) = (String.length a + String.length b)%nat.
Proof. induction a as [|c a IH]; simpl; [done | by rewrite IH]. Qed.

Lemma substring_all (s : string) : String.substring 0 (String.length s) s = s.
Proof. induction s as [|c s IH]; simpl; [done | by rewrite IH]. Qed.

Lemma substring_skip (p s : string) (m : nat) :
  String.substring (String.length p) m (p +:+ s) = String.substring 0 m s.
Proof. induction p as [|c p IH]; simpl; [done | exact IH]. Qed.

Lemma substring_split (s : string) (k : nat) :
  (k <= String.length s)%nat ->
  s = String.substring 0 k s +:+ String.substring k (String.length s - k) s.
Proof.
  revert k. induction s as [|c s IH]; intros k Hk; simpl in *.
  - destruct k; [done | lia].
  - destruct k as [|k]; simpl.
    + by rewrite substring_all.
    + change (String c s = String c (String.substring 0 k s +:+
                String.substring k (String.length s - k) s)).
      f_equal. apply IH. lia.
Qed.

(** [endswith] is "has this suffix". *)
Lemma endswith_spec (s suf : string) :
  PyStr.endswith s suf = true <-> exists base, s = base +:+ suf.
Proof.
  unfold PyStr.endswith. split.
  - destruct (Nat.leb_spec (String.length suf) (String.length s)) as [Hle|]; [|done].
    intros Heq%bool_decide_eq_true.
    exists (String.substring 0 (String.length s - String.length suf) s).
    pose proof (substring_split s (String.length s - String.length suf)) as Hs.
    replace (String.length s - (String.length s - String.length suf))%nat
      with (String.length suf) in Hs by lia.
    rewrite Heq in Hs. apply Hs. lia.
  - intros [base ->]. rewrite str_length_app.
    destruct (Nat.leb_spec (String.length suf)
                (String.length base + String.length suf)) as [_|]; [|lia].
    apply bool_decide_eq_true.
    replace (String.length base + String.length suf - String.length suf)%nat
      with (String.length base) by lia.
    by rewrite substring_skip, substring_all.
Qed.

Lemma leb_refl (a : string) : PyStr.leb a a = true.
Proof.
  induction a as [|c a IH]; simpl; [done|].
  by rewrite Nat.ltb_irrefl.
Qed.

Lemma leb_total (a b : string) : PyStr.leb a b = false -> PyStr.leb b a = true.
Proof.
  revert b. induction a as [|c a IH]; intros [|d b]; simpl; try done.
  destruct (Nat.ltb_spec (PyStr.code c) (PyStr.code d)); [done|].
  destruct (Nat.ltb_spec (PyStr.code d) (PyStr.code c)); [done|].
  apply IH.
Qed.

Lemma leb_trans (a b c : string) :
  PyStr.leb a b = true -> PyStr.leb b c = true -> PyStr.leb a c = true.
Proof.
  revert b c. induction a as [|x a IH]; intros [|y b] [|z c]; simpl; try done.
  destruct (Nat.ltb_spec (PyStr.code x) (PyStr.code y)),
           (Nat.ltb_spec (PyStr.code y) (PyStr.code x)),
           (Nat.ltb_spec (PyStr.code y) (PyStr.code z)),
           (Nat.ltb_spec (PyStr.code z) (PyStr.code y)),
           (Nat.ltb_spec (PyStr.code x) (PyStr.code z)),
           (Nat.ltb_spec (PyStr.code z) (PyStr.code x));
    try done; try lia.
  apply IH.
Qed.

(** Two names in both orders are the same name: the order is the one
    of the code sequences, not an order up to case or locale. *)
Lemma leb_antisym (a b : string) :
  PyStr.leb a b = true -> PyStr.leb b a = true -> a = b.
Proof.
  revert b. induction a as [|x a IH]; intros [|y b]; simpl; try done.
  destruct (Nat.ltb_spec (PyStr.code x) (PyStr.code y)),
           (Nat.ltb_spec (PyStr.code y) (PyStr.code x)); try done; try lia.
  intros H1 H2. f_equal; [|by apply IH].
  assert (PyStr.code x = PyStr.code y) as Hc by lia.
  unfold PyStr.code in Hc.
  by rewrite <- (ascii_nat_embedding x), <- (ascii_nat_embedding y), Hc.
Qed.

End StringFacts.

(** ** Sorting *)

Section Sorting.

Lemma insert_sorted_perm (x : string) (l : list string) :
  insert_sorted x l ≡ₚ x :: l.
Proof.
  induction l as [|y r IH]; simpl; [done|].
  destruct (PyStr.leb x y); [done|].
  rewrite IH. apply Permutation_swap.
Qed.

Lemma sorted_perm (l : list string) : sorted l ≡ₚ l.
Proof.
  induction l as [|x r IH]; simpl; [done|].
  by rewrite insert_sorted_perm, IH.
Qed.

Lemma insert_sorted_ordered (x : string) (l : list string) :
  StronglySorted PyStr.le l -> StronglySorted PyStr.le (insert_sorted x l).
Proof.
  induction 1 as [|y r Hr IH Hy]; simpl.
  - repeat constructor.
  - destruct (PyStr.leb x y) eqn:Hxy.
    + constructor; [by constructor|].
      constructor; [done|].
      eapply Forall_impl; [exact Hy|].
      intros z Hz. by eapply leb_trans.
    + constructor; [done|].
      rewrite insert_sorted_perm. constructor; [|done].
      by apply leb_total.
Qed.

Lemma sorted_ordered (l : list string) : StronglySorted PyStr.le (sorted l).
Proof.
  induction l as [|x r IH]; simpl; [constructor|].
  by apply insert_sorted_ordered.
Qed.

End Sorting.

Lemma discover_elem (names : list string) (f : string) :
  f ∈ discover names <-> f ∈ names /\ is_vsi f = true.
Proof.
  unfold discover. rewrite sorted_perm.
  by rewrite !list_elem_of_In, List.filter_In.
Qed.

(** C4. File discovery returns exactly the names of the listing that end
    with [.vsi] (each as often as the listing has it), in increasing
    lexicographic order of their character codes; the listing
    [b.vsi, A.vsi, c.vsi] yields [A.vsi, b.vsi, c.vsi]. *)
Theorem discover_sorted_vsi_names :
  (forall names : list string,
      discover names ≡ₚ List.filter (fun f => PyStr.endswith f ".vsi") names
      /\ StronglySorted PyStr.le (discover names)
      /\ (forall f, f ∈ discover names <->
                    f ∈ names /\ exists base, f = base +:+ ".vsi"))
  /\ discover ["b.vsi"; "A.vsi"; "c.vsi"] = ["A.vsi"; "b.vsi"; "c.vsi"].
Proof.
  split; [|reflexivity].
  intros names. split; [apply sorted_perm|].
  split; [apply sorted_ordered|].
  intros f. rewrite discover_elem. unfold is_vsi. by rewrite endswith_spec.
Qed.

(** ** The task *)

Section TaskFacts.

Variable w : world.
Variables vsi_folder tif_folder : string.

Ltac run_cases f :=
  unfold run_task, convert_vsi_to_tif, try_finally, try_except, bind, call,
    assign, emit, del_if_bound, gc_collect; simpl;
  destruct (make_options w (PyStr.path_join vsi_folder f)) as [[]|?]; simpl;
  [destruct (io_open w (PyStr.path_join vsi_folder f)) as [j|?]; simpl;
   [destruct (from_java w j) as [a|?]; simpl;
    [destruct (array_values w a) as [v|?]; simpl;
     [destruct (imwrite w (PyStr.path_join tif_folder (tif_name f)) v)
        as [[]|?]; simpl|]|]|]|].

Lemma run_task_events (f : string) :
  Forall (fun ev => task_event ev = true) (out (run_task w vsi_folder tif_folder f).2).
Proof.
  run_cases f; simplify_map_eq; simpl; repeat constructor.
Qed.

(** An exception raised inside the [try] never leaves the task: the
    [except] clause prints it and the function returns [None]. *)
Lemma run_task_swallows (f : string) :
  make_options w (PyStr.path_join vsi_folder f) = Ok tt ->
  (run_task w vsi_folder tif_folder f).1 = Ok tt.
Proof. intros Ho. revert Ho. run_cases f; done. Qed.

Lemma run_task_error_logged (f : string) (e : exn) :
  make_options w (PyStr.path_join vsi_folder f) = Ok tt ->
  io_open w (PyStr.path_join vsi_folder f) = Raise e ->
  EvErrorDuring f e ∈ out (run_task w vsi_folder tif_folder f).2.
Proof.
  intros Ho Hi. revert Ho Hi. run_cases f; try done.
  intros _ [= ->]. simplify_map_eq. cbn.
  do 2 apply list_elem_of_further. apply list_elem_of_here.
Qed.

(** The [finally] clause on every path. *)
Lemma run_task_cleanup (f : string) :
  let r := run_task w vsi_folder tif_folder f in
  locals r.2 !! "jimage" = None
  /\ locals r.2 !! "image_array" = None
  /\ match make_options w (PyStr.path_join vsi_folder f) with
     | Ok _ =>
         r.1 = Ok tt
         /\ last (out r.2) = Some (EvGcCollect (dom (locals r.2)))
     | Raise e =>
         r.1 = Raise e /\ locals r.2 = ∅
         /\ out r.2 = [EvOptions (PyStr.path_join vsi_folder f)]
     end.
Proof.
  run_cases f; simplify_map_eq; cbn; repeat split; by simplify_map_eq.
Qed.

End TaskFacts.

(** ** Logs *)

Section LogFacts.

Lemma submitted_app (l1 l2 : list event) :
  submitted (l1 ++ l2) = submitted l1 ++ submitted l2.
Proof. apply omap_app. Qed.

Lemma notified_app (l1 l2 : list event) :
  notified (l1 ++ l2) = notified l1 ++ notified l2.
Proof. apply omap_app. Qed.

Lemma notifications_app (l1 l2 : list event) :
  notifications (l1 ++ l2) = notifications l1 ++ notifications l2.
Proof. apply List.filter_app. Qed.

Lemma count_app (p : event -> bool) (l1 l2 : list event) :
  count p (l1 ++ l2) = (count p l1 + count p l2)%nat.
Proof. unfold count. by rewrite List.filter_app, length_app. Qed.

Lemma task_events_silent (l : list event) :
  Forall (fun ev => task_event ev = true) l ->
  submitted l = [] /\ notifications l = [] /\ notified l = []
  /\ count is_completion l = 0%nat.
Proof.
  induction 1 as [|ev l Hev _ (IH1 & IH2 & IH3 & IH4)]; [done|].
  unfold count, notifications in *.
  destruct ev; try discriminate Hev; cbn; by rewrite ?IH1, ?IH3.
Qed.

Lemma notified_notifications (l : list event) :
  notified (notifications l) = notified l.
Proof.
  induction l as [|ev l IH]; [done|].
  unfold notifications in *.
  destruct ev; simpl; try exact IH; unfold notified in *; simpl; by rewrite IH.
Qed.

Lemma notified_notify (xs : list (string * result unit)) :
  notified (notify <$> xs) = xs.*1.
Proof.
  induction xs as [|[f [[]|e]] xs IH]; cbn; [done|by rewrite <- IH..].
Qed.

Lemma notify_log (x : string * result unit) :
  submitted [notify x] = [] /\ notifications [notify x] = [notify x]
  /\ count is_completion [notify x] = 0%nat.
Proof. by destruct x as [f [[]|e]]. Qed.

Lemma count_failure_notifications (l : list event) :
  count is_failure l = count is_failure (notifications l).
Proof.
  unfold count, notifications.
  induction l as [|ev l IH]; [done|]. destruct ev; cbn; by rewrite ?IH.
Qed.

Lemma all_processed_no_failure (xs : list (string * result unit)) :
  (forall x, x ∈ xs -> notify x = EvProcessed x.1) ->
  count is_failure (notify <$> xs) = 0%nat.
Proof.
  unfold count.
  induction xs as [|x xs IH]; intros Hok; [done|]. cbn.
  rewrite (Hok x) by apply list_elem_of_here. cbn.
  apply IH. intros y Hy. apply Hok. by apply list_elem_of_further.
Qed.

Lemma notifications_elem (l : list event) (ev : event) :
  ev ∈ notifications l -> ev ∈ l.
Proof.
  unfold notifications. rewrite !list_elem_of_In, List.filter_In. tauto.
Qed.

End LogFacts.

(** ** The thread list *)

Section Threads.

Implicit Types ts : list (option string).

Lemma running_take ts (i : nat) (f : string) :
  ts !! i = Some None ->
  omap id (<[i := Some f]> ts) ≡ₚ f :: omap id ts.
Proof.
  revert i. induction ts as [|t ts IH]; intros [|i] Hi; simplify_eq/=; [done|].
  destruct t as [g|]; cbn.
  - rewrite IH by done. apply Permutation_swap.
  - by apply IH.
Qed.

Lemma running_finish ts (i : nat) (f : string) :
  ts !! i = Some (Some f) ->
  omap id ts ≡ₚ f :: omap id (<[i := None]> ts).
Proof.
  revert i. induction ts as [|t ts IH]; intros [|i] Hi; simplify_eq/=; [done|].
  destruct t as [g|]; cbn.
  - rewrite (IH i) by done. apply Permutation_swap.
  - by apply IH.
Qed.

Lemma running_spawn ts : omap id (ts ++ [None]) = omap id ts.
Proof. rewrite omap_app. cbn. by rewrite app_nil_r. Qed.

Lemma running_nonempty ts :
  omap id ts <> [] -> exists i f, ts !! i = Some (Some f).
Proof.
  induction ts as [|[g|] ts IH]; cbn; [done| |].
  - intros _. by exists 0%nat, g.
  - intros [i [f Hi]]%IH. by exists (S i), f.
Qed.

Lemma running_none_head ts :
  omap id ts = [] -> ts <> [] -> ts !! 0%nat = Some None.
Proof. destruct ts as [|[g|] ts]; cbn; done. Qed.

Lemma running_length ts : (length (omap id ts) <= length ts)%nat.
Proof. induction ts as [|[g|] ts IH]; cbn; lia. Qed.

End Threads.

(** ** The pool: safety, progress, termination *)

Section PoolFacts.

Variable w : world.
Variable max_workers : Z.
Variables vsi_folder tif_folder : string.
Variable files : list string.

Local Abbreviation step := (step w max_workers vsi_folder tif_folder).
Local Abbreviation steps := (steps w max_workers vsi_folder tif_folder).
Local Abbreviation inv := (pool_inv w max_workers vsi_folder tif_folder files).

Hypothesis workers_pos : 1 <= max_workers.

Lemma init_inv (log0 : list event) :
  submitted log0 = [] -> notifications log0 = [] ->
  count is_completion log0 = 0%nat ->
  inv (init_pool log0 files).
Proof.
  intros Hs Hn Hc. split; cbn [init_pool to_submit work_queue threads
    done_futures results log completed].
  - cbn. lia.
  - unfold tokens; cbn. by rewrite app_nil_r.
  - intros x Hx. by apply elem_of_nil in Hx.
  - intros x ev Hx. by apply elem_of_nil in Hx.
  - done.
  - by rewrite Hs.
  - by rewrite Hn.
  - done.
Qed.

(** Closes a permutation goal where one element changed place. *)
Ltac moved_one :=
  rewrite ?fmap_app; cbn [fmap list_fmap]; rewrite <- ?app_assoc; cbn [app];
  rewrite <- ?Permutation_middle, ?app_nil_r; done.

Ltac fields :=
  cbn [to_submit work_queue threads done_futures results log completed
       do_submit do_take do_yield do_complete].

Lemma step_inv (s s' : pool) : inv s -> step s s' -> inv s'.
Proof.
  intros [Ht Htok Hout Hlog Hq Hsub Hnot Hcomp] Hstep.
  destruct Hstep as [s f rest spawn Hts Hsp Hmust | s i f q Hi Hwq
                    | s i f Hi | s l1 x l2 Hts Hdone | s Hts Hwq Hrun Hdone Hc].
  - (* submit *)
    assert (completed s = false) as Hc.
    { destruct (completed s); [|done]. destruct Hcomp as [E _]; congruence. }
    split; fields.
    + destruct spawn; [|done]. rewrite length_app; cbn. specialize (Hsp eq_refl). lia.
    + rewrite <- Htok. unfold tokens, running; fields. rewrite Hts.
      assert (omap id (if spawn then threads s ++ [None] else threads s)
              = omap id (threads s)) as ->.
      { destruct spawn; [apply running_spawn|done]. }
      moved_one.
    + done.
    + intros x ev Hx Hev. apply elem_of_app. left. by eapply Hlog.
    + intros Hnil. destruct spawn.
      * by destruct (threads s).
      * by specialize (Hmust Hnil).
    + rewrite submitted_app; cbn. rewrite <- Hsub, Hts.
      by rewrite <- app_assoc.
    + rewrite notifications_app; cbn. by rewrite app_nil_r.
    + rewrite Hc in *. rewrite count_app, Hcomp. done.
  - (* take *)
    assert (completed s = false) as Hc.
    { destruct (completed s); [|done]. destruct Hcomp as (_ & E & _); congruence. }
    split; fields; try done.
    + by rewrite length_insert.
    + rewrite <- Htok. unfold tokens, running; fields.
      rewrite Hwq, (running_take _ _ _ Hi). moved_one.
    + intros Hnil. apply (f_equal length) in Hnil.
      rewrite length_insert in Hnil. apply lookup_lt_Some in Hi.
      cbn in Hnil. lia.
    + by rewrite Hc in *.
  - (* finish *)
    assert (completed s = false) as Hc.
    { destruct (completed s); [|done]. destruct Hcomp as (_ & _ & E & _).
      pose proof (running_finish _ _ _ Hi) as HP. unfold running in E.
      rewrite E in HP. by apply Permutation_nil_cons in HP. }
    pose proof (run_task_events w vsi_folder tif_folder f) as Hev.
    apply task_events_silent in Hev as (Hev1 & Hev2 & _ & Hev4).
    unfold do_finish.
    destruct (run_task w vsi_folder tif_folder f) as [r fr] eqn:Hrun.
    cbn in Hev1, Hev2, Hev4.
    split; fields.
    + by rewrite length_insert.
    + rewrite <- Htok. unfold tokens, running; fields.
      rewrite (running_finish _ _ _ Hi). moved_one.
    + intros x Hx. rewrite <- app_assoc in Hx.
      apply elem_of_app in Hx as [Hx|Hx].
      { apply Hout. apply elem_of_app; by left. }
      apply elem_of_cons in Hx as [->|Hx]; [cbn [fst snd]; by rewrite Hrun|].
      apply Hout. apply elem_of_app; by right.
    + intros x ev Hx Hev. rewrite <- app_assoc in Hx. apply elem_of_app.
      apply elem_of_app in Hx as [Hx|Hx].
      { left. eapply Hlog; [|done]. apply elem_of_app; by left. }
      apply elem_of_cons in Hx as [->|Hx].
      { right. cbn [fst] in Hev. by rewrite Hrun in Hev. }
      left. eapply Hlog; [|done]. apply elem_of_app; by right.
    + intros Hnil. apply Hq. destruct (threads s); [done|].
      by destruct i.
    + by rewrite submitted_app, Hev1, app_nil_r.
    + by rewrite notifications_app, Hev2, app_nil_r.
    + rewrite Hc in *. by rewrite count_app, Hev4, Hcomp.
  - (* yield *)
    assert (completed s = false) as Hc.
    { destruct (completed s); [|done]. destruct Hcomp as (_ & _ & _ & E & _).
      rewrite E in Hdone. by destruct l1. }
    split; fields; try done.
    + rewrite <- Htok. unfold tokens; fields. rewrite Hdone. moved_one.
    + intros y Hy. apply Hout. rewrite Hdone.
      repeat setoid_rewrite elem_of_app in Hy.
      rewrite list_elem_of_singleton in Hy.
      rewrite !elem_of_app, elem_of_cons. tauto.
    + intros y ev Hy Hev. apply elem_of_app. left. eapply Hlog; [|done].
      rewrite Hdone.
      repeat setoid_rewrite elem_of_app in Hy.
      rewrite list_elem_of_singleton in Hy.
      rewrite !elem_of_app, elem_of_cons. tauto.
    + rewrite submitted_app. destruct (notify_log x) as (-> & _ & _).
      by rewrite app_nil_r.
    + rewrite notifications_app, fmap_app, Hnot.
      by destruct (notify_log x) as (_ & -> & _).
    + rewrite Hc in *. rewrite count_app, Hcomp.
      by destruct (notify_log x) as (_ & _ & ->).
  - (* complete *)
    rewrite Hc in Hcomp.
    split; fields; try done.
    + intros x ev Hx Hev. apply elem_of_app. left. by eapply Hlog.
    + by rewrite submitted_app, app_nil_r.
    + rewrite notifications_app. cbn. by rewrite app_nil_r.
    + repeat split; try done. by exists (log s).
Qed.

Lemma steps_inv (s s' : pool) : inv s -> steps s s' -> inv s'.
Proof. induction 2; eauto using step_inv. Qed.

(** Every step consumes work, so every schedule is finite. *)
Lemma step_work_left (s s' : pool) :
  step s s' -> (work_left s' < work_left s)%nat.
Proof.
  unfold work_left, in_flight, running.
  destruct 1 as [s f rest spawn Hts Hsp Hmust | s i f q Hi Hwq
                | s i f Hi | s l1 x l2 Hts Hdone | s Hts Hwq Hrun Hdone Hc]; cbn.
  - rewrite Hts, length_app. cbn.
    assert (omap id (if spawn then threads s ++ [None] else threads s)
            = omap id (threads s)) as ->.
    { destruct spawn; [apply running_spawn|done]. }
    lia.
  - rewrite Hwq, (running_take _ _ _ Hi). cbn. lia.
  - unfold do_finish. destruct (run_task w vsi_folder tif_folder f) as [r fr]. cbn.
    rewrite (running_finish _ _ _ Hi), length_app. cbn. lia.
  - rewrite Hdone, !length_app. cbn. lia.
  - rewrite Hc. lia.
Qed.

(** No deadlock: a pool that has not shown the completion box can move. *)
Lemma step_progress (s : pool) :
  inv s -> completed s = false -> exists s', step s s'.
Proof.
  intros [Ht Htok Hout Hlog Hq Hsub Hnot Hcomp] Hc.
  destruct (to_submit s) as [|f rest] eqn:Hts.
  2:{ exists (do_submit (bool_decide (threads s = [])) f rest s).
      apply step_submit; [done| |].
      - intros Hn%bool_decide_eq_true. rewrite Hn. cbn. lia.
      - intros Hn. by apply bool_decide_eq_true. }
  destruct (done_futures s) as [|x l2] eqn:Hdone.
  2:{ exists (do_yield [] x l2 s). by apply step_yield. }
  destruct (decide (running s = [])) as [Hrun|Hrun].
  2:{ apply running_nonempty in Hrun as (i & f & Hi).
      eexists. by apply (step_finish _ _ _ _ s i f). }
  destruct (work_queue s) as [|f q] eqn:Hwq.
  - exists (do_complete s). by apply step_complete.
  - exists (do_take 0 f q s). apply step_take; [|done].
    apply running_none_head; [done|].
    intros Hnil. by specialize (Hq Hnil).
Qed.

(** From every state of a run, the completion box is reached. *)
Lemma run_completes (s : pool) :
  inv s -> exists sf, steps s sf /\ completed sf = true.
Proof.
  remember (work_left s) as n eqn:Hn.
  revert s Hn. induction (lt_wf n) as [n _ IH]. intros s -> Hinv.
  destruct (completed s) eqn:Hc.
  - exists s. split; [apply rtc_refl|done].
  - destruct (step_progress s Hinv Hc) as [s' Hs'].
    destruct (IH _ (step_work_left _ _ Hs') s' eq_refl (step_inv _ _ Hinv Hs'))
      as (sf & Hsf & Hdone).
    exists sf. split; [by eapply rtc_l|done].
Qed.

End PoolFacts.

(** ** Complete runs *)

Section RunFacts.

Variable w : world.
Variable ui : form.

Local Abbreviation log0 g :=
  [EvAddOption g; EvImagejInit; EvListdir (vsi_folder_entry ui)].

Lemma positive_int_inl (text : string) (d : Z) (c : string) (n : Z) :
  positive_int text d c = inl n <-> entry_value text d = Some n /\ 0 < n.
Proof.
  unfold positive_int.
  destruct (entry_value text d) as [m|]; [|split; [done|by intros [? _]]].
  destruct (Z.leb_spec m 0); split.
  - done.
  - intros [[= ->] ?]. lia.
  - intros [= ->]. split; [done|lia].
  - by intros [[= ->] _].
Qed.

Lemma positive_int_inr (text : string) (d : Z) (c : string) (n : Z) :
  entry_value text d = Some n -> n <= 0 ->
  positive_int text d c = inr (WithMessage c).
Proof.
  unfold positive_int. intros -> Hn.
  destruct (Z.leb_spec n 0); [done|lia].
Qed.

Lemma run_conversion_stopped (l : list event) :
  run_conversion_begin w ui = Stopped l ->
  forall log, run_conversion w ui log <-> log = l.
Proof.
  intros Hb log. split.
  - destruct 1 as [l' Hb'|l' e Hb'|n s0 sf Hb' _ _]; congruence.
  - intros ->. by apply run_stopped.
Qed.

Lemma run_conversion_running (n : Z) (s0 : pool) :
  run_conversion_begin w ui = Running n s0 ->
  forall l,
    run_conversion w ui l <->
    exists sf, steps w n (vsi_folder_entry ui) (tif_folder_entry ui) s0 sf
               /\ completed sf = true /\ l = log sf.
Proof.
  intros Hb l. split.
  - destruct 1 as [l' Hb'|l' e Hb'|n' s0' sf Hb' Hsteps Hdone]; try congruence.
    rewrite Hb in Hb'. injection Hb' as <- <-. by exists sf.
  - intros (sf & Hsteps & Hdone & ->). by eapply run_pool.
Qed.

Section Valid.

Variables (g n : Z) (names : list string).
Hypothesis memory_ok : entry_value (memory_entry ui) 28 = Some g.
Hypothesis memory_pos : 0 < g.
Hypothesis processes_ok : entry_value (process_entry ui) 2 = Some n.
Hypothesis processes_pos : 0 < n.
Hypothesis listed : listdir w (vsi_folder_entry ui) = Ok names.

Lemma begin_valid :
  run_conversion_begin w ui =
    match discover names with
    | [] => Stopped (log0 g ++ [no_files])
    | _ :: _ => Running n (init_pool (log0 g) (discover names))
    end.
Proof.
  unfold run_conversion_begin.
  rewrite (proj2 (positive_int_inl _ _ _ g)) by done.
  rewrite (proj2 (positive_int_inl _ _ _ n)) by done.
  by rewrite listed.
Qed.

Lemma begin_inv :
  pool_inv w n (vsi_folder_entry ui) (tif_folder_entry ui) (discover names)
    (init_pool (log0 g) (discover names)).
Proof. apply init_inv; [lia|done..]. Qed.

(** What a complete run of the pool leaves behind. *)
Lemma pool_run_end (sf : pool) :
  steps w n (vsi_folder_entry ui) (tif_folder_entry ui)
    (init_pool (log0 g) (discover names)) sf ->
  completed sf = true ->
  pool_inv w n (vsi_folder_entry ui) (tif_folder_entry ui) (discover names) sf
  /\ (results sf).*1 ≡ₚ discover names
  /\ notified (log sf) = (results sf).*1
  /\ submitted (log sf) = discover names
  /\ exists pre, log sf = pre ++ [completion]
                 /\ count is_completion pre = 0%nat.
Proof.
  intros Hsteps Hdone.
  pose proof (steps_inv _ _ _ _ _ _ _ begin_inv Hsteps) as Hinv.
  split; [done|].
  destruct Hinv as [_ Htok _ _ _ Hsub Hnot Hcomp].
  rewrite Hdone in Hcomp. destruct Hcomp as (Hts & Hwq & Hrun & Hdf & Hpre).
  unfold tokens in Htok. rewrite Hts, Hwq, Hrun, Hdf in Htok. cbn in Htok.
  repeat split; [done| | |done].
  - by rewrite <- notified_notifications, Hnot, notified_notify.
  - rewrite Hts, app_nil_r in Hsub. done.
Qed.

End Valid.

End RunFacts.

Lemma count_notified (l : list event) :
  count is_notification l = length (notified l).
Proof.
  unfold count, notified.
  induction l as [|ev l IH]; [done|]. destruct ev; cbn; by rewrite ?IH.
Qed.

Lemma submitted_elem (l : list event) (f : string) :
  f ∈ submitted l -> EvSubmit f ∈ l.
Proof.
  unfold submitted. intros (ev & Hev & Hf)%list_elem_of_omap.
  destruct ev; try discriminate Hf. by injection Hf as ->.
Qed.

Lemma steps_threads_bound (w : world) (n : Z) (vsi_folder tif_folder : string)
    (s s' : pool) :
  Z.of_nat (length (threads s)) <= n ->
  steps w n vsi_folder tif_folder s s' ->
  Z.of_nat (length (threads s')) <= n.
Proof.
  intros Hs Hsteps. induction Hsteps as [s|s s1 s2 Hstep _ IH]; [done|].
  apply IH. clear IH.
  destruct Hstep as [s f rest spawn Hts Hsp Hmust | s i f q Hi Hwq
                    | s i f Hi | s l1 x l2 Hts Hdone | s Hts Hwq Hrun Hdone Hc];
    cbn; try done.
  - destruct spawn; [|done]. rewrite length_app. cbn. specialize (Hsp eq_refl). lia.
  - by rewrite length_insert.
  - unfold do_finish. destruct (run_task w vsi_folder tif_folder f). cbn.
    by rewrite length_insert.
Qed.

(** ** The claims *)

(** The runs of a valid configuration on a listable folder. *)
Section ValidRun.

Variables (w : world) (ui : form) (g n : Z) (names : list string).
Hypothesis memory_ok : entry_value (memory_entry ui) 28 = Some g.
Hypothesis memory_pos : 0 < g.
Hypothesis processes_ok : entry_value (process_entry ui) 2 = Some n.
Hypothesis processes_pos : 0 < n.
Hypothesis listed : listdir w (vsi_folder_entry ui) = Ok names.

Lemma valid_run_no_deadlock (s0 s : pool) :
run_conversion_begin w ui = Running n s0 ->
steps w n (vsi_folder_entry ui) (tif_folder_entry ui) s0 s ->
exists sf, steps w n (vsi_folder_entry ui) (tif_folder_entry ui) s sf
           /\ completed sf = true.
Proof.
intros Hb Hsteps.
rewrite (begin_valid w ui g n names) in Hb by done.
destruct (discover names) as [|f fs] eqn:Hd; [done|]. rewrite <- Hd in Hb.
injection Hb as <-.
eapply run_completes; [lia|].
eapply steps_inv; [|done]. by apply (begin_inv w ui g).
Qed.

Lemma valid_run_exists : exists log, run_conversion w ui log.
Proof.
pose proof (begin_valid w ui g n names memory_ok memory_pos processes_ok
              processes_pos listed) as Hb.
destruct (discover names) as [|f fs] eqn:Hd.
- eexists. by apply run_stopped.
- rewrite <- Hd in Hb.
  destruct (valid_run_no_deadlock _ _ Hb (rtc_refl _ _)) as (sf & Hsteps & Hdone).
  exists (log sf). by eapply run_pool.
Qed.

Lemma valid_run_log (log : list event) :
run_conversion w ui log ->
submitted log = discover names /\ notified log ≡ₚ discover names.
Proof.
pose proof (begin_valid w ui g n names memory_ok memory_pos processes_ok
              processes_pos listed) as Hb.
destruct (discover names) as [|f fs] eqn:Hd.
- by intros ->%(run_conversion_stopped _ _ _ Hb).
- rewrite <- Hd in *.
  intros (sf & Hsteps & Hdone & ->)%(run_conversion_running _ _ _ _ Hb).
  destruct (pool_run_end w ui g n names processes_pos sf Hsteps Hdone)
    as (_ & Hperm & Hnot & Hsub & _).
  by rewrite Hnot.
Qed.

End ValidRun.

(** C2. With a valid configuration and a listable folder, every run of
    the handler submits the discovered files, each once and in order, and
    notifies exactly one result per discovered file; such a run exists,
    and the pool reaches its end from every state a schedule can lead
    to, so no submitted task stays without a result. *)
Theorem one_result_per_discovered_file
    (w : world) (ui : form) (g n : Z) (names : list string) :
  entry_value (memory_entry ui) 28 = Some g -> 0 < g ->
  entry_value (process_entry ui) 2 = Some n -> 0 < n ->
  listdir w (vsi_folder_entry ui) = Ok names ->
  (exists log, run_conversion w ui log)
  /\ (forall log, run_conversion w ui log ->
        submitted log = discover names
        /\ notified log ≡ₚ discover names
        /\ count is_notification log = length (discover names))
  /\ (forall s0 s, run_conversion_begin w ui = Running n s0 ->
        steps w n (vsi_folder_entry ui) (tif_folder_entry ui) s0 s ->
        exists sf, steps w n (vsi_folder_entry ui) (tif_folder_entry ui) s sf
                   /\ completed sf = true).
Proof.
  intros Hg Hgpos Hn Hnpos Hls. split; [|split].
  - by eapply valid_run_exists.
  - intros log Hrun.
    destruct (valid_run_log w ui g n names Hg Hgpos Hn Hnpos Hls log Hrun)
      as [Hsub Hperm].
    split; [done|]. split; [done|].
    by rewrite count_notified, Hperm.
  - intros s0 s. by eapply valid_run_no_deadlock.
Qed.

Lemma one_result_per_discovered_file_witness :
  (exists log, run_conversion two_files_world (sample_form "28" "2") log)
  /\ (forall log, run_conversion two_files_world (sample_form "28" "2") log ->
        submitted log = ["a.vsi"; "b.vsi"]
        /\ notified log ≡ₚ ["a.vsi"; "b.vsi"]
        /\ count is_notification log = 2%nat)
  /\ (forall s0 s,
        run_conversion_begin two_files_world (sample_form "28" "2") = Running 2 s0 ->
        steps two_files_world 2 "/in" "/out" s0 s ->
        exists sf, steps two_files_world 2 "/in" "/out" s sf /\ completed sf = true).
Proof.
  exact (one_result_per_discovered_file two_files_world (sample_form "28" "2")
           28 2 ["b.vsi"; "a.vsi"] eq_refl eq_refl eq_refl eq_refl eq_refl).
Defined.

(** C3. When the memory entry or the process entry holds an integer
    that is not positive, the handler shows the "Input Error" box and
    returns: that box is all its log holds, so the folder is not listed,
    the JVM is not configured or started, and no task is submitted. *)
Theorem invalid_config_rejected_before_work (w : world) (ui : form) :
  (exists g, entry_value (memory_entry ui) 28 = Some g /\ g <= 0)
  \/ (exists n, entry_value (process_entry ui) 2 = Some n /\ n <= 0) ->
  exists prefix ve,
    run_conversion_begin w ui = Stopped [EvCritical "Input Error" prefix ve]
    /\ forall log, run_conversion w ui log ->
         log = [EvCritical "Input Error" prefix ve]
         /\ count is_work log = 0%nat
         /\ submitted log = [].
Proof.
  intros Hbad.
  assert (exists prefix ve,
    run_conversion_begin w ui = Stopped [EvCritical "Input Error" prefix ve])
    as (prefix & ve & Hb).
  { unfold run_conversion_begin.
    destruct (positive_int (memory_entry ui) 28 _) as [g|ve] eqn:Hm; [|by eauto].
    destruct (positive_int (process_entry ui) 2 _) as [n|ve] eqn:Hp; [|by eauto].
    apply positive_int_inl in Hm as [Hm Hgpos], Hp as [Hp Hnpos].
    destruct Hbad as [(g' & Hg' & ?)|(n' & Hn' & ?)]; simplify_eq; lia. }
  exists prefix, ve. split; [done|].
  by intros log ->%(run_conversion_stopped _ _ _ Hb).
Qed.

Lemma invalid_config_rejected_before_work_witness :
  (exists prefix ve,
      run_conversion_begin two_files_world (sample_form "0" "2")
      = Stopped [EvCritical "Input Error" prefix ve]
      /\ forall log, run_conversion two_files_world (sample_form "0" "2") log ->
           log = [EvCritical "Input Error" prefix ve]
           /\ count is_work log = 0%nat
           /\ submitted log = [])
  /\ (exists prefix ve,
      run_conversion_begin two_files_world (sample_form "28" "-1")
      = Stopped [EvCritical "Input Error" prefix ve]
      /\ forall log, run_conversion two_files_world (sample_form "28" "-1") log ->
           log = [EvCritical "Input Error" prefix ve]
           /\ count is_work log = 0%nat
           /\ submitted log = []).
Proof.
  split.
  - apply (invalid_config_rejected_before_work two_files_world (sample_form "0" "2")).
    left. exists 0. split; [reflexivity|lia].
  - apply (invalid_config_rejected_before_work two_files_world (sample_form "28" "-1")).
    right. exists (-1). split; [reflexivity|lia].
Defined.

(** C6. With a valid configuration and a folder that lists no [.vsi]
    name, the handler ends by showing the "No Files" information box: no
    task is submitted, no success and no failure is notified, and no
    error box is shown. *)
Theorem no_files_is_informational
    (w : world) (ui : form) (g n : Z) (names : list string) :
  entry_value (memory_entry ui) 28 = Some g -> 0 < g ->
  entry_value (process_entry ui) 2 = Some n -> 0 < n ->
  listdir w (vsi_folder_entry ui) = Ok names ->
  discover names = [] ->
  (exists log, run_conversion w ui log)
  /\ forall log, run_conversion w ui log ->
       last log = Some no_files
       /\ count is_success log = 0%nat
       /\ count is_failure log = 0%nat
       /\ count is_critical log = 0%nat
       /\ submitted log = [].
Proof.
  intros Hg Hgpos Hn Hnpos Hls Hd.
  pose proof (begin_valid w ui g n names Hg Hgpos Hn Hnpos Hls) as Hb.
  rewrite Hd in Hb. split.
  - eexists. by apply run_stopped.
  - by intros log ->%(run_conversion_stopped _ _ _ Hb).
Qed.

Lemma no_files_is_informational_witness :
  (exists log, run_conversion no_vsi_world (sample_form "" "") log)
  /\ forall log, run_conversion no_vsi_world (sample_form "" "") log ->
       last log = Some no_files
       /\ count is_success log = 0%nat
       /\ count is_failure log = 0%nat
       /\ count is_critical log = 0%nat
       /\ submitted log = [].
Proof.
  exact (no_files_is_informational no_vsi_world (sample_form "" "") 28 2
           ["notes.txt"] eq_refl eq_refl eq_refl eq_refl eq_refl eq_refl).
Defined.

(** C7, as stated, fails on a folder without [.vsi] names: validation and
    discovery pass, and the only run ends with the "No Files" box, the
    completion signal never being emitted. *)
Lemma no_completion_signal_without_files :
  run_conversion no_vsi_world (sample_form "28" "2")
    [EvAddOption 28; EvImagejInit; EvListdir "/in"; no_files]
  /\ forall log, run_conversion no_vsi_world (sample_form "28" "2") log ->
       count is_completion log = 0%nat.
Proof.
  assert (run_conversion_begin no_vsi_world (sample_form "28" "2")
          = Stopped [EvAddOption 28; EvImagejInit; EvListdir "/in"; no_files])
    as Hb by reflexivity.
  split.
  - by apply run_stopped.
  - by intros log ->%(run_conversion_stopped _ _ _ Hb).
Qed.

(** C7, amended. With a valid configuration and a listable folder: when
    at least one [.vsi] name is discovered, every run ends with the
    completion signal, emitted once, after the notifications of all
    discovered files, whatever their outcomes; when none is discovered,
    the run ends with the "No Files" box and emits no completion
    signal. *)
Theorem completion_once_after_all_files
    (w : world) (ui : form) (g n : Z) (names : list string) :
  entry_value (memory_entry ui) 28 = Some g -> 0 < g ->
  entry_value (process_entry ui) 2 = Some n -> 0 < n ->
  listdir w (vsi_folder_entry ui) = Ok names ->
  (exists log, run_conversion w ui log)
  /\ forall log, run_conversion w ui log ->
       match discover names with
       | [] => last log = Some no_files /\ count is_completion log = 0%nat
       | _ :: _ =>
           count is_completion log = 1%nat
           /\ exists pre, log = pre ++ [completion]
                          /\ count is_completion pre = 0%nat
                          /\ notified pre ≡ₚ discover names
       end.
Proof.
  intros Hg Hgpos Hn Hnpos Hls.
  split; [by eapply valid_run_exists|]. intros log Hrun.
  pose proof (begin_valid w ui g n names Hg Hgpos Hn Hnpos Hls) as Hb.
  destruct (discover names) as [|f fs] eqn:Hd.
  - by apply (run_conversion_stopped _ _ _ Hb) in Hrun as ->.
  - rewrite <- Hd in *.
    destruct (valid_run_log w ui g n names Hg Hgpos Hn Hnpos Hls log Hrun)
      as (_ & Hperm).
    apply (run_conversion_running _ _ _ _ Hb) in Hrun as (sf & Hsteps & Hdone & ->).
    destruct (pool_run_end w ui g n names Hnpos sf Hsteps Hdone)
      as (_ & _ & _ & _ & pre & Hlog & Hpre).
    rewrite Hlog in *. split.
    + rewrite count_app, Hpre. reflexivity.
    + exists pre. repeat split; [done|].
      rewrite notified_app in Hperm. cbn in Hperm. by rewrite app_nil_r in Hperm.
Qed.

Lemma completion_once_after_all_files_witness :
  (exists log, run_conversion two_files_world (sample_form "28" "2") log)
  /\ forall log, run_conversion two_files_world (sample_form "28" "2") log ->
       count is_completion log = 1%nat
       /\ exists pre, log = pre ++ [completion]
                      /\ count is_completion pre = 0%nat
                      /\ notified pre ≡ₚ ["a.vsi"; "b.vsi"].
Proof.
  exact (completion_once_after_all_files two_files_world (sample_form "28" "2")
           28 2 ["b.vsi"; "a.vsi"] eq_refl eq_refl eq_refl eq_refl eq_refl).
Defined.

(** In every state a schedule of a pool can reach, the number of tasks
    in flight is at most the ceiling the pool was created with. *)
Lemma pool_in_flight_bounded
    (w : world) (ceiling : Z) (vsi_folder tif_folder : string)
    (files : list string) (log0 : list event) (s : pool) :
  0 <= ceiling ->
  steps w ceiling vsi_folder tif_folder (init_pool log0 files) s ->
  Z.of_nat (in_flight s) <= ceiling.
Proof.
  intros Hn Hsteps.
  pose proof (steps_threads_bound w ceiling vsi_folder tif_folder
                (init_pool log0 files) s) as Ht.
  cbn in Ht. specialize (Ht ltac:(lia) Hsteps).
  pose proof (running_length (threads s)). unfold in_flight, running. lia.
Qed.

(** C8. The ceiling the handler creates its pool with is the value of
    the process entry, and in every state a schedule of that pool can
    reach, the number of tasks in flight is at most that value, however
    many files were discovered; with the value 1 at most one task is in
    flight, so no two tasks overlap. *)
Theorem in_flight_bounded_by_process_entry
    (w : world) (ui : form) (g n : Z) (names : list string) :
  entry_value (memory_entry ui) 28 = Some g -> 0 < g ->
  entry_value (process_entry ui) 2 = Some n -> 0 < n ->
  listdir w (vsi_folder_entry ui) = Ok names ->
  (exists log, run_conversion w ui log)
  /\ forall ceiling s0 s,
       run_conversion_begin w ui = Running ceiling s0 ->
       steps w ceiling (vsi_folder_entry ui) (tif_folder_entry ui) s0 s ->
       ceiling = n
       /\ Z.of_nat (in_flight s) <= n
       /\ (n = 1 -> (in_flight s <= 1)%nat).
Proof.
  intros Hg Hgpos Hn Hnpos Hls. split; [by eapply valid_run_exists|].
  intros ceiling s0 s Hb Hsteps.
  rewrite (begin_valid w ui g n names Hg Hgpos Hn Hnpos Hls) in Hb.
  destruct (discover names) as [|f fs]; [done|].
  injection Hb as <- <-.
  assert (0 <= n) as Hn0 by lia.
  pose proof (pool_in_flight_bounded _ _ _ _ _ _ _ Hn0 Hsteps) as Hbound.
  split; [done|]. split; [done|]. intros ->. lia.
Qed.

Lemma in_flight_bounded_by_process_entry_witness :
  (exists log, run_conversion two_files_world (sample_form "28" "1") log)
  /\ forall ceiling s0 s,
       run_conversion_begin two_files_world (sample_form "28" "1")
       = Running ceiling s0 ->
       steps two_files_world ceiling "/in" "/out" s0 s ->
       ceiling = 1
       /\ Z.of_nat (in_flight s) <= 1
       /\ (1 = 1 -> (in_flight s <= 1)%nat).
Proof.
  exact (in_flight_bounded_by_process_entry two_files_world (sample_form "28" "1")
           28 1 ["b.vsi"; "a.vsi"] eq_refl eq_refl eq_refl eq_refl eq_refl).
Defined.

(** The pool the handler creates for two workers does run two tasks at
    once: both files in flight is a state of its schedules, and the
    bound is reached. *)
Example two_tasks_in_flight :
  exists s0 s,
    run_conversion_begin two_files_world (sample_form "28" "2") = Running 2 s0
    /\ steps two_files_world 2 "/in" "/out" s0 s
    /\ running s = ["a.vsi"; "b.vsi"].
Proof.
  eexists _, _. split; [reflexivity|]. split.
  - eapply rtc_l; [|eapply rtc_l; [|eapply rtc_l; [|eapply rtc_l; [|apply rtc_refl]]]].
    + apply (step_submit _ _ _ _ _ "a.vsi" ["b.vsi"] true);
        [reflexivity | intros _; reflexivity | reflexivity].
    + apply (step_submit _ _ _ _ _ "b.vsi" [] true);
        [reflexivity | intros _; reflexivity | discriminate].
    + apply (step_take _ _ _ _ _ 0%nat "a.vsi" ["b.vsi"]); reflexivity.
    + apply (step_take _ _ _ _ _ 1%nat "b.vsi" []); reflexivity.
  - reflexivity.
Qed.

(** C10. Discovery looks at names only: an entry of the folder that is
    not a regular file (a sub-directory, say) and whose name ends with
    [.vsi] is among the discovered names and is submitted as a
    conversion task in every run. *)
Theorem vsi_named_entry_submitted_whatever_its_kind
    (w : world) (ui : form) (g n : Z) (ents : list dirent) (d : dirent) :
  entry_value (memory_entry ui) 28 = Some g -> 0 < g ->
  entry_value (process_entry ui) 2 = Some n -> 0 < n ->
  dir_entries w (vsi_folder_entry ui) = Ok ents ->
  d ∈ ents -> d_kind d <> RegularFile ->
  PyStr.endswith (d_name d) ".vsi" = true ->
  d_name d ∈ discover (d_name <$> ents)
  /\ (exists log, run_conversion w ui log)
  /\ forall log, run_conversion w ui log -> EvSubmit (d_name d) ∈ log.
Proof.
  intros Hg Hgpos Hn Hnpos Hents Hd _ Hvsi.
  assert (listdir w (vsi_folder_entry ui) = Ok (d_name <$> ents)) as Hls.
  { unfold listdir. by rewrite Hents. }
  assert (d_name d ∈ discover (d_name <$> ents)) as Hin.
  { apply discover_elem. split; [|done]. by apply list_elem_of_fmap_2. }
  split; [done|]. split; [by eapply valid_run_exists|].
  intros log Hrun.
  destruct (valid_run_log w ui g n _ Hg Hgpos Hn Hnpos Hls log Hrun) as [Hsub _].
  apply submitted_elem. by rewrite Hsub.
Qed.

Lemma vsi_named_entry_submitted_whatever_its_kind_witness :
  "scans.vsi" ∈ discover ["scans.vsi"; "a.vsi"]
  /\ (exists log, run_conversion subdir_world (sample_form "28" "2") log)
  /\ forall log, run_conversion subdir_world (sample_form "28" "2") log ->
       EvSubmit "scans.vsi" ∈ log.
Proof.
  apply (vsi_named_entry_submitted_whatever_its_kind subdir_world
           (sample_form "28" "2") 28 2
           [folder "scans.vsi"; file "a.vsi"] (folder "scans.vsi"));
    try reflexivity.
  - apply list_elem_of_here.
  - discriminate.
Defined.

(** What the loop reports when the options of every file can be built:
    each discovered file is notified as processed, also those whose
    conversion failed and printed its error, and no failure is
    notified. *)
Lemma failures_inside_try_notified_as_success
    (w : world) (ui : form) (g n : Z) (names : list string) :
  entry_value (memory_entry ui) 28 = Some g -> 0 < g ->
  entry_value (process_entry ui) 2 = Some n -> 0 < n ->
  listdir w (vsi_folder_entry ui) = Ok names ->
  (forall url, make_options w url = Ok tt) ->
  forall log, run_conversion w ui log ->
    count is_failure log = 0%nat
    /\ forall f, f ∈ discover names ->
         EvProcessed f ∈ log
         /\ forall e, io_open w (PyStr.path_join (vsi_folder_entry ui) f) = Raise e ->
                      EvErrorDuring f e ∈ log.
Proof.
  intros Hg Hgpos Hn Hnpos Hls Hopt log Hrun.
  pose proof (begin_valid w ui g n names Hg Hgpos Hn Hnpos Hls) as Hb.
  destruct (discover names) as [|f0 fs] eqn:Hd.
  { apply (run_conversion_stopped _ _ _ Hb) in Hrun as ->.
    split; [done|]. intros f Hf. by apply elem_of_nil in Hf. }
  rewrite <- Hd in *.
  apply (run_conversion_running _ _ _ _ Hb) in Hrun as (sf & Hsteps & Hdone & ->).
  destruct (pool_run_end w ui g n names Hnpos sf Hsteps Hdone)
    as (Hinv & Hperm & _ & _ & _).
  destruct Hinv as [_ _ Hout Hlog _ _ Hnot _].
  assert (forall x, x ∈ results sf -> notify x = EvProcessed x.1) as Hok.
  { intros x Hx. unfold notify. rewrite (Hout x) by (apply elem_of_app; by right).
    by rewrite run_task_swallows. }
  split.
  - rewrite count_failure_notifications, Hnot. by apply all_processed_no_failure.
  - intros f Hf. rewrite <- Hperm in Hf.
    apply list_elem_of_fmap in Hf as (x & -> & Hx). split.
    + rewrite <- (Hok x Hx). apply notifications_elem. rewrite Hnot.
      by apply list_elem_of_fmap_2.
    + intros e He. apply (Hlog x); [apply elem_of_app; by right|].
      by apply run_task_error_logged.
Qed.

(** C1, at a failing input.  The folder holds [a.vsi] and [b.vsi] and the
    codec cannot open [a.vsi].  Runs exist, none raises, and every run
    prints the error of [a.vsi] inside the task and then notifies
    [a.vsi] as processed successfully; no failure is notified. *)
Theorem unreadable_file_notified_as_success :
  (exists log, run_conversion two_files_world (sample_form "28" "2") log)
  /\ forall log, run_conversion two_files_world (sample_form "28" "2") log ->
       EvErrorDuring "a.vsi" "corrupt" ∈ log
       /\ EvProcessed "a.vsi" ∈ log
       /\ EvProcessed "b.vsi" ∈ log
       /\ count is_failure log = 0%nat.
Proof.
  split.
  { apply (valid_run_exists two_files_world (sample_form "28" "2") 28 2
             ["b.vsi"; "a.vsi"]); reflexivity. }
  intros log Hrun.
  destruct (failures_inside_try_notified_as_success two_files_world
              (sample_form "28" "2") 28 2 ["b.vsi"; "a.vsi"]
              eq_refl eq_refl eq_refl eq_refl eq_refl (fun _ => eq_refl) log Hrun)
    as (Hnone & Hall).
  destruct (Hall "a.vsi") as (Ha & Herr).
  { apply list_elem_of_here. }
  destruct (Hall "b.vsi") as (Hbv & _).
  { apply list_elem_of_further, list_elem_of_here. }
  repeat split; try done. by apply Herr.
Qed.

(** ** The name of the output file *)

Section TifName.

Lemma startswith_app (sep q : string) : PyStr.startswith (sep +:+ q) sep = true.
Proof.
  induction sep as [|c sep IH]; [by destruct q|].
  change (String c sep +:+ q) with (String c (sep +:+ q)). cbn.
  by rewrite decide_True.
Qed.

(** The first piece of [split] ends where the separator first occurs. *)
Lemma split_aux_first (sep q : string) :
  sep <> "" ->
  forall (p : string) (acc : list ascii),
    (forall p1 p2, p = p1 +:+ p2 -> p2 <> "" ->
                   PyStr.startswith (p2 +:+ sep +:+ q) sep = false) ->
    exists tl,
      PyStr.split_aux sep 0 acc (p +:+ sep +:+ q)
      = String.string_of_list_ascii (rev acc ++ String.list_ascii_of_string p) :: tl.
Proof.
  intros Hsep. induction p as [|c p IH]; intros acc Hfree.
  - change ("" +:+ sep +:+ q) with (sep +:+ q).
    pose proof (startswith_app sep q) as Hstart.
    destruct sep as [|c sep']; [done|].
    change (String c sep' +:+ q) with (String c (sep' +:+ q)) in *.
    cbn [PyStr.split_aux]. rewrite Hstart.
    rewrite app_nil_r. by eexists.
  - change (String c p +:+ sep +:+ q) with (String c (p +:+ sep +:+ q)).
    cbn [PyStr.split_aux].
    change (String c (p +:+ sep +:+ q)) with (String c p +:+ sep +:+ q).
    rewrite (Hfree "" (String c p)) by done.
    destruct (IH (c :: acc)) as [tl Htl].
    { intros p1 p2 -> Hp2. by apply (Hfree (String c p1) p2). }
    exists tl. rewrite Htl. cbn. by rewrite <- app_assoc.
Qed.

(** Where [.vsi] occurs only as the final suffix, the output name is
    the input name with that suffix replaced. *)
Lemma tif_name_replaces_suffix (base : string) :
  (forall p1 p2, base = p1 +:+ p2 -> p2 <> "" ->
                 PyStr.startswith (p2 +:+ ".vsi") ".vsi" = false) ->
  tif_name (base +:+ ".vsi") = base +:+ ".tif".
Proof.
  intros Hfree. unfold tif_name, PyStr.split.
  destruct (split_aux_first ".vsi" "" ltac:(done) base [] Hfree) as [tl Htl].
  change (".vsi" +:+ "") with ".vsi" in Htl. rewrite Htl. cbn.
  by rewrite String.string_of_list_ascii_of_string.
Qed.

End TifName.

(** C5, at a failing input.  [a.vsi.b.vsi] ends with [.vsi], and its
    output name is [a.tif], not [a.vsi.b.tif]: the name is cut at the
    first [.vsi], so the task writes to the path that [a.vsi] is written
    to as well. *)
Theorem output_name_cut_at_first_vsi :
  PyStr.endswith "a.vsi.b.vsi" ".vsi" = true
  /\ tif_name "a.vsi.b.vsi" = "a.tif"
  /\ tif_name "a.vsi.b.vsi" <> "a.vsi.b.tif"
  /\ PyStr.path_join "/out" (tif_name "a.vsi.b.vsi") = "/out/a.tif"
  /\ tif_name "a.vsi" = "a.tif"
  /\ EvImwrite "/out/a.tif" 3%nat
       ∈ out (run_task (sample_world [file "a.vsi.b.vsi"; file "a.vsi"] "")
                "/in" "/out" "a.vsi.b.vsi").2.
Proof.
  repeat split; try reflexivity; try discriminate.
  vm_compute. do 4 apply list_elem_of_further. apply list_elem_of_here.
Qed.

(** * Further properties of the code *)

(** ** Validation and discovery in [run_conversion] *)

Lemma run_conversion_crashed (w : world) (ui : form) (l : list event) (e : exn) :
  run_conversion_begin w ui = Crashed l e ->
  forall log, run_conversion w ui log <-> log = l.
Proof.
  intros Hb log. split.
  - destruct 1 as [l' Hb'|l' e' Hb'|n s0 sf Hb' _ _]; congruence.
  - intros ->. by eapply run_crashed.
Qed.

Lemma lstrip_blank (l : list ascii) :
  Forall (fun c => PyInt.is_space c = true) l -> PyInt.lstrip l = [].
Proof. induction 1 as [|c l Hc _ IH]; [done|]. cbn. by rewrite Hc. Qed.

(** X1. For entries of ASCII characters, at most 4300 long (where
    [PyInt.parse] is [int()]): an entry that is no integer literal
    stops the handler with the "Input Error" box that names the
    offending text; the memory entry is looked at first, and the box is
    all the handler does. *)
Theorem non_integer_entry_rejected (w : world) (ui : form) :
  plain_text (memory_entry ui) = true ->
  entry_value (memory_entry ui) 28 = None
  \/ (exists g, entry_value (memory_entry ui) 28 = Some g /\ 0 < g
                /\ plain_text (process_entry ui) = true
                /\ entry_value (process_entry ui) 2 = None) ->
  let box :=
    match entry_value (memory_entry ui) 28 with
    | None => EvCritical "Input Error" "Invalid memory input: "
                (InvalidLiteral (memory_entry ui))
    | Some _ => EvCritical "Input Error" "Invalid process input: "
                  (InvalidLiteral (process_entry ui))
    end in
  run_conversion_begin w ui = Stopped [box]
  /\ forall log, run_conversion w ui log -> log = [box].
Proof.
  intros _ Hbad box.
  assert (run_conversion_begin w ui = Stopped [box]) as Hb.
  { unfold run_conversion_begin, positive_int, box.
    destruct Hbad as [Hm|(g & Hm & Hg & _ & Hp)]; rewrite Hm; [done|].
    destruct (Z.leb_spec g 0); [lia|]. by rewrite Hp. }
  split; [done|]. by intros log ->%(run_conversion_stopped _ _ _ Hb).
Qed.

Lemma non_integer_entry_rejected_witness :
  (run_conversion_begin two_files_world (sample_form "12 GB" "0")
   = Stopped [EvCritical "Input Error" "Invalid memory input: "
                (InvalidLiteral "12 GB")]
   /\ forall log, run_conversion two_files_world (sample_form "12 GB" "0") log ->
        log = [EvCritical "Input Error" "Invalid memory input: "
                 (InvalidLiteral "12 GB")])
  /\ (run_conversion_begin two_files_world (sample_form "12" "two")
      = Stopped [EvCritical "Input Error" "Invalid process input: "
                   (InvalidLiteral "two")]
      /\ forall log, run_conversion two_files_world (sample_form "12" "two") log ->
           log = [EvCritical "Input Error" "Invalid process input: "
                    (InvalidLiteral "two")]).
Proof.
  split.
  - apply (non_integer_entry_rejected two_files_world (sample_form "12 GB" "0")).
    + reflexivity.
    + left. reflexivity.
  - apply (non_integer_entry_rejected two_files_world (sample_form "12" "two")).
    + reflexivity.
    + right. exists 12. repeat split; reflexivity.
Defined.

(** X2. Only the empty text stands for the default: a text that is not
    empty and holds nothing but white space is handed to [int()], which
    rejects it, so the entry has no value. *)
Theorem blank_entry_is_not_defaulted (text : string) (dflt : Z) :
  text <> "" ->
  Forall (fun c => PyInt.is_space c = true) (String.list_ascii_of_string text) ->
  entry_value text dflt = None /\ entry_value "" dflt = Some dflt.
Proof.
  intros Hne Hblank. split; [|done].
  unfold entry_value. rewrite bool_decide_eq_false_2 by done.
  unfold PyInt.parse, PyInt.strip.
  by rewrite (lstrip_blank _ Hblank).
Qed.

Lemma blank_entry_is_not_defaulted_witness :
  entry_value "  " 28 = None /\ entry_value "" 28 = Some 28.
Proof.
  apply (blank_entry_is_not_defaulted "  " 28); [discriminate|].
  repeat constructor.
Defined.

(** X3. When the folder cannot be listed, the exception of [os.listdir]
    leaves the handler: by then the JVM option is set and ImageJ is
    started, but no message box is shown and nothing is submitted. *)
Theorem unlistable_folder_crashes_after_jvm_start
    (w : world) (ui : form) (g n : Z) (e : exn) :
  entry_value (memory_entry ui) 28 = Some g -> 0 < g ->
  entry_value (process_entry ui) 2 = Some n -> 0 < n ->
  listdir w (vsi_folder_entry ui) = Raise e ->
  run_conversion_begin w ui
  = Crashed [EvAddOption g; EvImagejInit; EvListdir (vsi_folder_entry ui)] e
  /\ forall log, run_conversion w ui log ->
       log = [EvAddOption g; EvImagejInit; EvListdir (vsi_folder_entry ui)]
       /\ count is_box log = 0%nat /\ submitted log = [].
Proof.
  intros Hg Hgpos Hn Hnpos Hls.
  assert (run_conversion_begin w ui
          = Crashed [EvAddOption g; EvImagejInit; EvListdir (vsi_folder_entry ui)] e)
    as Hb.
  { unfold run_conversion_begin.
    rewrite (proj2 (positive_int_inl _ _ _ g)) by done.
    rewrite (proj2 (positive_int_inl _ _ _ n)) by done.
    by rewrite Hls. }
  split; [done|]. by intros log ->%(run_conversion_crashed _ _ _ _ Hb).
Qed.

Lemma unlistable_folder_crashes_after_jvm_start_witness :
  run_conversion_begin two_files_world
    {| vsi_folder_entry := "/nowhere"; tif_folder_entry := "/out";
       memory_entry := "4"; process_entry := "1" |}
  = Crashed [EvAddOption 4; EvImagejInit; EvListdir "/nowhere"]
      "No such file or directory"
  /\ forall log,
       run_conversion two_files_world
         {| vsi_folder_entry := "/nowhere"; tif_folder_entry := "/out";
            memory_entry := "4"; process_entry := "1" |} log ->
       log = [EvAddOption 4; EvImagejInit; EvListdir "/nowhere"]
       /\ count is_box log = 0%nat /\ submitted log = [].
Proof.
  exact (unlistable_folder_crashes_after_jvm_start two_files_world
           {| vsi_folder_entry := "/nowhere"; tif_folder_entry := "/out";
              memory_entry := "4"; process_entry := "1" |}
           4 1 "No such file or directory" eq_refl eq_refl eq_refl eq_refl eq_refl).
Defined.




(** ** The folder dialogs and the defaults *)



(** X6. After any sequence of source-folder dialogs, the source entry
    holds the last answer that was not a cancellation, or what it held
    before when every dialog was cancelled; the other three entries are
    as they were. *)
Theorem source_entry_holds_last_choice (answers : list string) (ui : form) :
  let ui' := foldl (fun u a => browse_vsi_folder a u) ui answers in
  vsi_folder_entry ui'
  = default (vsi_folder_entry ui)
      (last (List.filter (fun a => negb (bool_decide (a = ""))) answers))
  /\ tif_folder_entry ui' = tif_folder_entry ui
  /\ memory_entry ui' = memory_entry ui
  /\ process_entry ui' = process_entry ui.
Proof.
  revert ui. induction answers as [|a answers IH]; intros ui; [done|].
  cbn [foldl]. destruct (IH (browse_vsi_folder a ui)) as (Hv & Ht & Hm & Hp).
  cbn zeta. rewrite Hv, Ht, Hm, Hp. clear IH Hv Ht Hm Hp.
  unfold browse_vsi_folder. cbn [List.filter].
  destruct (bool_decide (a = "")); cbn [negb]; [done|].
  repeat split.
  destruct (List.filter _ answers) as [|b bs] eqn:Hf; [done|].
  rewrite last_cons_cons.
  destruct (last (b :: bs)) eqn:Hl; [done|]. by apply last_None in Hl.
Qed.

(** ** More on one task *)

Section TaskOutcomes.

Variable w : world.
Variables vsi_folder tif_folder : string.

Ltac task_paths f :=
  unfold run_task, convert_vsi_to_tif, try_finally, try_except, bind, call,
    assign, emit, del_if_bound, gc_collect, options_fail, decoded; simpl;
  destruct (make_options w (PyStr.path_join vsi_folder f)) as [[]|?] eqn:Ho; simpl;
  [destruct (io_open w (PyStr.path_join vsi_folder f)) as [j|?] eqn:Hj; simpl;
   [destruct (from_java w j) as [a|?] eqn:Ha; simpl;
    [destruct (array_values w a) as [v|?] eqn:Hv; simpl;
     [destruct (imwrite w (PyStr.path_join tif_folder (tif_name f)) v)
        as [[]|?] eqn:Hw; simpl|]|]|]|];
  simplify_map_eq; simpl.

(** X7. A task ends in exactly one of three ways: it prints that the
    image was saved, it prints the error of the conversion, or the
    exception of the option set-up leaves it.  It logs its start once,
    and it collects garbage once unless the set-up raised. *)
Theorem task_has_one_outcome (f : string) :
  let r := run_task w vsi_folder tif_folder f in
  started (out r.2) = [PyStr.path_join vsi_folder f]
  /\ (count is_saved (out r.2) + count is_error_during (out r.2)
      + (if options_fail w vsi_folder f then 1 else 0) = 1)%nat
  /\ count is_gc (out r.2) = (if options_fail w vsi_folder f then 0 else 1)%nat
  /\ (options_fail w vsi_folder f = true <-> exists e, r.1 = Raise e).
Proof.
  task_paths f; repeat split; try done; try (by intros [? ?]); by eauto.
Qed.

(** X8. The task prints "Image saved successfully" for its output path
    exactly when the options were built, the decode succeeded and
    [tiff.imwrite] returned; it never prints it for another path. *)
Theorem saved_line_iff_written (f : string) :
  let o := out (run_task w vsi_folder tif_folder f).2 in
  let save_url := PyStr.path_join tif_folder (tif_name f) in
  (EvSaved save_url ∈ o <->
     options_fail w vsi_folder f = false
     /\ exists v, decoded w (PyStr.path_join vsi_folder f) = Ok v
                  /\ imwrite w save_url v = Ok tt)
  /\ forall url, EvSaved url ∈ o -> url = save_url.
Proof.
  task_paths f; (split; [split|]).
  all: try (intros H; exfalso;
            repeat (apply elem_of_cons in H as [H|H]; [discriminate H|]);
            by apply elem_of_nil in H).
  all: try (intros (Hf & v' & Hd & Hw'); congruence).
  all: try (intros url H;
            repeat (apply elem_of_cons in H as [H|H];
                    [try discriminate H; congruence|]);
            by apply elem_of_nil in H).
  - intros _. split; [done|]. by exists v.
  - intros _. repeat first [apply list_elem_of_here | apply list_elem_of_further].
Qed.

(** X9. [tiff.imwrite] is attempted exactly when the options were built
    and the decode succeeded, then once and on the derived output path;
    a task whose decode failed writes nothing. *)
Theorem write_only_after_decode (f : string) :
  written (out (run_task w vsi_folder tif_folder f).2)
  = match options_fail w vsi_folder f,
          decoded w (PyStr.path_join vsi_folder f) with
    | false, Ok _ => [PyStr.path_join tif_folder (tif_name f)]
    | _, _ => []
    end.
Proof. task_paths f; done. Qed.


Lemma task_started (f : string) :
  started (out (run_task w vsi_folder tif_folder f).2)
  = [PyStr.path_join vsi_folder f].
Proof. task_paths f; done. Qed.

Lemma task_written (f : string) (url : string) :
  url ∈ written (out (run_task w vsi_folder tif_folder f).2) ->
  url = PyStr.path_join tif_folder (tif_name f).
Proof.
  task_paths f; intros H; try (by apply elem_of_nil in H);
    by apply list_elem_of_singleton in H.
Qed.

Lemma task_written_once (f : string) :
  (length (written (out (run_task w vsi_folder tif_folder f).2)) <= 1)%nat.
Proof. task_paths f; lia. Qed.

Lemma task_raises_iff (f : string) :
  options_fail w vsi_folder f
  = match (run_task w vsi_folder tif_folder f).1 with
    | Raise _ => true
    | Ok _ => false
    end.
Proof. task_paths f; done. Qed.

End TaskOutcomes.

(** ** More on output names and paths *)

Section OutputNames.

Lemma str_app_assoc (a b c : string) : (a +:+ b) +:+ c = a +:+ b +:+ c.
Proof.
  induction a as [|x a IH]; [done|].
  change (String x ((a +:+ b) +:+ c) = String x (a +:+ b +:+ c)). by rewrite IH.
Qed.

Lemma str_app_inj_r (a b c : string) : a +:+ c = b +:+ c -> a = b.
Proof.
  revert b. induction a as [|x a IH]; intros [|y b] H.
  - done.
  - apply (f_equal String.length) in H.
    rewrite !str_length_app in H. cbn in H. lia.
  - apply (f_equal String.length) in H.
    rewrite !str_length_app in H. cbn in H. lia.
  - change (String x (a +:+ c) = String y (b +:+ c)) in H.
    injection H as -> H. f_equal. by apply IH.
Qed.

Lemma startswith_app_long (x q t : string) :
  (String.length t <= String.length x)%nat ->
  PyStr.startswith (x +:+ q) t = PyStr.startswith x t.
Proof.
  revert x. induction t as [|c t IH]; intros x Hlen.
  - by destruct x, q.
  - destruct x as [|d x]; [cbn in Hlen; lia|].
    change (String d x +:+ q) with (String d (x +:+ q)). cbn.
    destruct (decide (c = d)); [|done]. apply IH. cbn in Hlen. lia.
Qed.

(** The first piece of [split] is a prefix of the string. *)
Lemma split_aux_prefix (sep s : string) (acc : list ascii) :
  exists p rest tl,
    s = p +:+ rest
    /\ PyStr.split_aux sep 0 acc s
       = String.string_of_list_ascii (rev acc ++ String.list_ascii_of_string p) :: tl.
Proof.
  revert acc. induction s as [|c s IH]; intros acc.
  - exists "", "", []. split; [done|]. cbn. by rewrite app_nil_r.
  - cbn [PyStr.split_aux]. destruct (PyStr.startswith (String c s) sep).
    + exists "", (String c s). eexists. split; [done|]. cbn. by rewrite app_nil_r.
    + destruct (IH (c :: acc)) as (p & rest & tl & -> & Htl).
      exists (String c p), rest, tl. split; [done|].
      rewrite Htl. cbn. by rewrite <- app_assoc.
Qed.

Lemma tif_name_prefix (f : string) :
  exists p rest, f = p +:+ rest /\ tif_name f = p +:+ ".tif".
Proof.
  destruct (split_aux_prefix ".vsi" f []) as (p & rest & tl & Hf & Htl).
  exists p, rest. split; [done|].
  unfold tif_name, PyStr.split. rewrite Htl. cbn.
  by rewrite String.string_of_list_ascii_of_string.
Qed.

(** X10. Whatever the file name, the output name is a prefix of it
    followed by [.tif], and the output path ends with [.tif]; for a name
    that does not start with a slash (as names from [os.listdir] do
    not), the output path starts with the destination folder. *)
Theorem output_path_shape (tif_folder f : string) :
  (exists p rest, f = p +:+ rest /\ tif_name f = p +:+ ".tif")
  /\ PyStr.endswith (PyStr.path_join tif_folder (tif_name f)) ".tif" = true
  /\ (PyStr.startswith f "/" = false ->
      PyStr.startswith (PyStr.path_join tif_folder (tif_name f)) tif_folder = true).
Proof.
  destruct (tif_name_prefix f) as (p & rest & Hf & Hname).
  split; [by eauto|]. rewrite Hname. split.
  - apply endswith_spec. unfold PyStr.path_join.
    destruct (PyStr.startswith _ "/"); [by eexists|].
    destruct (_ || _).
    + exists (tif_folder +:+ p). by rewrite str_app_assoc.
    + exists (tif_folder +:+ "/" +:+ p). by rewrite !str_app_assoc.
  - intros Hslash. unfold PyStr.path_join.
    assert (PyStr.startswith (p +:+ ".tif") "/" = false) as ->.
    { subst f. destruct p as [|c p]; [done|].
      change (String c p +:+ rest) with (String c (p +:+ rest)) in Hslash.
      change (String c p +:+ ".tif") with (String c (p +:+ ".tif")).
      cbn [PyStr.startswith] in *.
      destruct (decide ("/"%char = c)); [|done]. by destruct (p +:+ rest). }
    destruct (_ || _); apply startswith_app.
Qed.

Lemma no_inner_vsi_sound (base : string) :
  no_inner_vsi base = true -> single_suffix base.
Proof.
  intros Hc p1 p2 H Hp2.
  assert (String.length base = String.length p1 + String.length p2)%nat as Hlen.
  { by rewrite H, str_length_app. }
  assert (p2 = String.substring (String.length base - String.length p2)
                 (String.length p2) base) as Hsub.
  { replace (String.length base - String.length p2)%nat with (String.length p1)
      by lia.
    by rewrite H, substring_skip, substring_all. }
  unfold no_inner_vsi in Hc. rewrite forallb_forall in Hc.
  specialize (Hc (String.length p2)). rewrite <- Hsub in Hc.
  apply negb_true_iff, Hc, in_seq.
  destruct p2; [done|]. cbn in *. lia.
Qed.

Lemma single_suffix_first (base q : string) :
  single_suffix base ->
  forall p1 p2, base = p1 +:+ p2 -> p2 <> "" ->
                PyStr.startswith (p2 +:+ ".vsi" +:+ q) ".vsi" = false.
Proof.
  intros Hs p1 p2 Hb Hp2. rewrite <- str_app_assoc.
  rewrite startswith_app_long; [by eapply Hs|].
  rewrite str_length_app. cbn. lia.
Qed.

(** X11. The output name drops everything from the first [.vsi] on:
    when [.vsi] does not begin inside [base], every name
    [base.vsi<rest>] gets the output name [base.tif], the one of
    [base.vsi] itself. *)
Theorem output_name_drops_from_first_vsi (base rest : string) :
  single_suffix base ->
  tif_name (base +:+ ".vsi" +:+ rest) = base +:+ ".tif"
  /\ tif_name (base +:+ ".vsi" +:+ rest) = tif_name (base +:+ ".vsi").
Proof.
  intros Hs.
  assert (forall q, tif_name (base +:+ ".vsi" +:+ q) = base +:+ ".tif") as Hcut.
  { intros q. unfold tif_name, PyStr.split.
    destruct (split_aux_first ".vsi" q ltac:(done) base []
                (single_suffix_first base q Hs)) as [tl Htl].
    rewrite Htl. cbn. by rewrite String.string_of_list_ascii_of_string. }
  split; [apply Hcut|].
  rewrite Hcut. symmetry. exact (Hcut "").
Qed.

Lemma output_name_drops_from_first_vsi_witness :
  tif_name ("scan_01" +:+ ".vsi" +:+ ".old.vsi") = "scan_01" +:+ ".tif"
  /\ tif_name ("scan_01" +:+ ".vsi" +:+ ".old.vsi") = tif_name ("scan_01" +:+ ".vsi").
Proof.
  exact (output_name_drops_from_first_vsi "scan_01" ".old.vsi"
           (no_inner_vsi_sound "scan_01" eq_refl)).
Defined.

(** X12. Two different names that have [.vsi] only as their final
    suffix get different output names: among such files no output
    overwrites another. *)
Theorem clean_names_do_not_collide (base1 base2 : string) :
  single_suffix base1 -> single_suffix base2 ->
  base1 <> base2 ->
  tif_name (base1 +:+ ".vsi") <> tif_name (base2 +:+ ".vsi").
Proof.
  intros H1 H2 Hne. rewrite !tif_name_replaces_suffix by done.
  intros Heq. by apply Hne, (str_app_inj_r _ _ ".tif").
Qed.

Lemma clean_names_do_not_collide_witness :
  tif_name ("scan_01" +:+ ".vsi") <> tif_name ("scan.01" +:+ ".vsi").
Proof.
  apply (clean_names_do_not_collide "scan_01" "scan.01").
  - apply no_inner_vsi_sound. reflexivity.
  - apply no_inner_vsi_sound. reflexivity.
  - discriminate.
Defined.

End OutputNames.

(** ** More on discovery *)

Section DiscoveryOrder.

Lemma filter_perm (p : string -> bool) (l1 l2 : list string) :
  l1 ≡ₚ l2 -> List.filter p l1 ≡ₚ List.filter p l2.
Proof.
  induction 1 as [|x l1 l2 _ IH|x y l|l1 l2 l3 _ IH1 _ IH2]; cbn.
  - done.
  - destruct (p x); by rewrite IH.
  - destruct (p x), (p y); try done. apply Permutation_swap.
  - by rewrite IH1.
Qed.

(** A list has one sorted arrangement. *)
Lemma sorted_unique (l1 l2 : list string) :
  StronglySorted PyStr.le l1 -> StronglySorted PyStr.le l2 ->
  l1 ≡ₚ l2 -> l1 = l2.
Proof.
  intros H1. revert l2. induction H1 as [|x l1 Hs1 IH Hx]; intros l2 H2 Hp.
  - by apply Permutation_nil_l in Hp.
  - destruct H2 as [|y l2 Hs2 Hy].
    { by apply Permutation_nil_r in Hp. }
    assert (x = y) as ->.
    { assert (x ∈ y :: l2) as Hxin by (rewrite <- Hp; apply list_elem_of_here).
      assert (y ∈ x :: l1) as Hyin by (rewrite Hp; apply list_elem_of_here).
      apply elem_of_cons in Hxin as [?|Hxin]; [done|].
      apply elem_of_cons in Hyin as [?|Hyin]; [done|].
      rewrite Forall_forall in Hx, Hy.
      apply leb_antisym; [by apply Hx|by apply Hy]. }
    f_equal. apply IH; [done|]. by apply Permutation_cons_inv in Hp.
Qed.

End DiscoveryOrder.

(** X13. The discovered sequence does not depend on the order in which
    [os.listdir] reports the names: two listings with the same names
    give the same sequence, so the same submission order. *)
Theorem discovery_ignores_listing_order (names1 names2 : list string) :
  names1 ≡ₚ names2 -> discover names1 = discover names2.
Proof.
  intros Hp. apply sorted_unique; [apply sorted_ordered..|].
  unfold discover. rewrite !sorted_perm. by apply filter_perm.
Qed.

Lemma discovery_ignores_listing_order_witness :
  discover ["b.vsi"; "notes.txt"; "a.vsi"] = discover ["a.vsi"; "b.vsi"; "notes.txt"].
Proof.
  apply (discovery_ignores_listing_order ["b.vsi"; "notes.txt"; "a.vsi"]
           ["a.vsi"; "b.vsi"; "notes.txt"]).
  apply (Permutation_cons_app ["a.vsi"] ["notes.txt"] "b.vsi").
  apply Permutation_swap.
Defined.

(** X14. When the listing holds no name twice (as a directory listing
    does), no file is submitted twice and none is notified twice. *)
Theorem distinct_names_processed_once
    (w : world) (ui : form) (g n : Z) (names : list string) :
  entry_value (memory_entry ui) 28 = Some g -> 0 < g ->
  entry_value (process_entry ui) 2 = Some n -> 0 < n ->
  listdir w (vsi_folder_entry ui) = Ok names ->
  NoDup names ->
  (exists log, run_conversion w ui log)
  /\ forall log, run_conversion w ui log ->
       NoDup (submitted log) /\ NoDup (notified log).
Proof.
  intros Hg Hgpos Hn Hnpos Hls Hnd.
  split; [by eapply valid_run_exists|]. intros log Hrun.
  destruct (valid_run_log w ui g n names Hg Hgpos Hn Hnpos Hls log Hrun)
    as [-> ->].
  assert (NoDup (discover names)) as Hd; [|done].
  unfold discover. rewrite sorted_perm.
  apply NoDup_ListNoDup, List.NoDup_filter, NoDup_ListNoDup, Hnd.
Qed.

Lemma distinct_names_processed_once_witness :
  (exists log, run_conversion two_files_world (sample_form "28" "2") log)
  /\ forall log, run_conversion two_files_world (sample_form "28" "2") log ->
       NoDup (submitted log) /\ NoDup (notified log).
Proof.
  apply (distinct_names_processed_once two_files_world (sample_form "28" "2")
           28 2 ["b.vsi"; "a.vsi"]); try reflexivity.
  apply (bool_decide_unpack _). reflexivity.
Defined.

(** ** More on complete runs *)

Section PoolLog.

Variable w : world.
Variable max_workers : Z.
Variables vsi_folder tif_folder : string.

Local Abbreviation step := (step w max_workers vsi_folder tif_folder).
Local Abbreviation steps := (steps w max_workers vsi_folder tif_folder).

Lemma task_event_pool_event (l : list event) :
  Forall (fun ev => task_event ev = true) l ->
  Forall (fun ev => pool_event ev = true) l.
Proof.
  intros H. eapply Forall_impl; [exact H|].
  intros ev Hev. unfold pool_event. by rewrite Hev.
Qed.

Lemma pool_event_notify (x : string * result unit) : pool_event (notify x) = true.
Proof. by destruct x as [f [[]|e]]. Qed.

(** The pool only appends to the log, and only events of its own. *)
Lemma step_log_grows (s s' : pool) :
  step s s' ->
  exists rest, log s' = log s ++ rest /\ Forall (fun ev => pool_event ev = true) rest.
Proof.
  destruct 1 as [s f rest spawn Hts Hsp Hmust | s i f q Hi Hwq
                | s i f Hi | s l1 x l2 Hts Hdone | s Hts Hwq Hrun Hdone Hc].
  - exists [EvSubmit f]. split; [done|]. by repeat constructor.
  - exists []. split; [by rewrite app_nil_r|]. constructor.
  - unfold do_finish.
    pose proof (run_task_events w vsi_folder tif_folder f) as Hev.
    destruct (run_task w vsi_folder tif_folder f) as [r fr]. cbn in *.
    exists (out fr). split; [done|]. by apply task_event_pool_event.
  - exists [notify x]. split; [done|].
    constructor; [apply pool_event_notify|constructor].
  - exists [completion]. split; [done|]. by repeat constructor.
Qed.

Lemma steps_log_grows (s s' : pool) :
  steps s s' ->
  exists rest, log s' = log s ++ rest /\ Forall (fun ev => pool_event ev = true) rest.
Proof.
  induction 1 as [s|s s1 s2 Hstep _ (rest2 & Hl2 & Hr2)].
  - exists []. split; [by rewrite app_nil_r|]. constructor.
  - destruct (step_log_grows _ _ Hstep) as (rest1 & Hl1 & Hr1).
    exists (rest1 ++ rest2). split; [|by apply Forall_app].
    by rewrite Hl2, Hl1, app_assoc.
Qed.

Lemma pool_events_counts (l : list event) :
  Forall (fun ev => pool_event ev = true) l ->
  count is_setup l = 0%nat /\ count is_box l = count is_completion l.
Proof.
  unfold count.
  induction 1 as [|ev l Hev _ [IH1 IH2]]; [done|].
  destruct ev; try discriminate Hev; cbn in *; try done.
  unfold pool_event in Hev. cbn in Hev. rewrite Hev. cbn. by rewrite IH2.
Qed.

(** Submissions come before notifications: the log splits into a part
    without notification and a part without submission. *)
Lemma steps_phases (s s' : pool) :
  steps s s' ->
  (to_submit s <> [] -> notifications (log s) = []) ->
  (exists l1 l2, log s = l1 ++ l2 /\ notifications l1 = [] /\ submitted l2 = []) ->
  (to_submit s' <> [] -> notifications (log s') = [])
  /\ exists l1 l2, log s' = l1 ++ l2 /\ notifications l1 = [] /\ submitted l2 = [].
Proof.
  induction 1 as [s|s s1 s2 Hstep _ IH]; intros Hsub Hsplit; [done|].
  apply IH; clear IH;
    destruct Hsplit as (l1 & l2 & Hlog & Hn1 & Hs2);
    destruct Hstep as [s f rest spawn Hts Hsp Hmust | s i f q Hi Hwq
                      | s i f Hi | s l1' x l2' Hts Hdone | s Hts Hwq Hrun Hdone Hc];
    cbn [do_submit do_take do_yield do_complete to_submit log].
  all: try (unfold do_finish;
            pose proof (run_task_events w vsi_folder tif_folder f) as Hev;
            apply task_events_silent in Hev as (Hev1 & Hev2 & _ & _);
            destruct (run_task w vsi_folder tif_folder f) as [r fr];
            cbn [to_submit log fst snd] in * ).
  - intros _. rewrite notifications_app, Hsub by (by rewrite Hts). done.
  - done.
  - intros Hne. by rewrite notifications_app, Hsub, Hev2.
  - by rewrite Hts.
  - by rewrite Hts.
  - exists (log s ++ [EvSubmit f]), []. rewrite app_nil_r. split; [done|].
    split; [|done]. rewrite notifications_app, Hsub by (by rewrite Hts). done.
  - by exists l1, l2.
  - exists l1, (l2 ++ out fr). rewrite Hlog, <- app_assoc. split; [done|].
    split; [done|]. by rewrite submitted_app, Hs2, Hev1.
  - exists l1, (l2 ++ [notify x]). rewrite Hlog, <- app_assoc. split; [done|].
    split; [done|]. rewrite submitted_app, Hs2.
    by destruct (notify_log x) as (-> & _).
  - exists l1, (l2 ++ [completion]). rewrite Hlog, <- app_assoc. split; [done|].
    split; [done|]. by rewrite submitted_app, Hs2.
Qed.

End PoolLog.

Lemma begin_running_inv (w : world) (ui : form) (n : Z) (s0 : pool) :
  run_conversion_begin w ui = Running n s0 ->
  exists g names,
    entry_value (memory_entry ui) 28 = Some g /\ 0 < g
    /\ entry_value (process_entry ui) 2 = Some n /\ 0 < n
    /\ listdir w (vsi_folder_entry ui) = Ok names
    /\ s0 = init_pool [EvAddOption g; EvImagejInit; EvListdir (vsi_folder_entry ui)]
              (discover names).
Proof.
  unfold run_conversion_begin.
  destruct (positive_int (memory_entry ui) 28 _) as [g|ve] eqn:Hm; [|done].
  destruct (positive_int (process_entry ui) 2 _) as [n'|ve] eqn:Hp; [|done].
  apply positive_int_inl in Hm as [Hm Hgpos], Hp as [Hp Hnpos].
  destruct (listdir w (vsi_folder_entry ui)) as [names|e] eqn:Hls; [|done].
  destruct (discover names) as [|f fs] eqn:Hd; [done|].
  intros [= <- <-]. exists g, names. by rewrite Hd.
Qed.

Lemma run_exists (w : world) (ui : form) : exists log, run_conversion w ui log.
Proof.
  destruct (run_conversion_begin w ui) as [l|l e|n s0] eqn:Hb.
  - exists l. by apply run_stopped.
  - exists l. by eapply run_crashed.
  - apply begin_running_inv in Hb as (g & names & Hg & Hgpos & Hn & Hnpos & Hls & _).
    by eapply valid_run_exists.
Qed.

(** Where the JVM starts: a run exists, and it shows no message box
    when the listing of the folder raised, else exactly one, at its
    end. *)
Lemma begin_run_boxes (w : world) (ui : form) :
  (exists log, run_conversion w ui log)
  /\ forall log, run_conversion w ui log ->
       match run_conversion_begin w ui with
       | Crashed _ _ => count is_box log = 0%nat
       | _ => count is_box log = 1%nat
              /\ exists pre box, log = pre ++ [box] /\ is_box box = true
       end.
Proof.
  split; [apply run_exists|]. intros log Hrun.
  destruct (run_conversion_begin w ui) as [l|l e|n s0] eqn:Hb.
  - apply (run_conversion_stopped _ _ _ Hb) in Hrun as ->.
    revert Hb. unfold run_conversion_begin.
    destruct (positive_int (memory_entry ui) 28 _); [|intros [= <-]; split;
      [done|by eexists [], _]].
    destruct (positive_int (process_entry ui) 2 _); [|intros [= <-]; split;
      [done|by eexists [], _]].
    destruct (listdir w (vsi_folder_entry ui)); [|done].
    destruct (discover _); [|done].
    intros [= <-]. split; [done|].
    by eexists [EvAddOption _; EvImagejInit; EvListdir _], no_files.
  - apply (run_conversion_crashed _ _ _ _ Hb) in Hrun as ->.
    revert Hb. unfold run_conversion_begin.
    destruct (positive_int (memory_entry ui) 28 _); [|done].
    destruct (positive_int (process_entry ui) 2 _); [|done].
    destruct (listdir w (vsi_folder_entry ui)); [by destruct (discover _)|].
    by intros [= <- _].
  - destruct (proj1 (run_conversion_running w ui n s0 Hb log) Hrun)
      as (sf & Hsteps & Hdone & Hl).
    subst log.
    apply begin_running_inv in Hb
      as (g & names & Hg & Hgpos & Hn & Hnpos & Hls & Hs0).
    subst s0.
    destruct (pool_run_end w ui g n names Hnpos sf Hsteps Hdone)
      as (_ & _ & _ & _ & pre & Hlog & Hpre).
    destruct (steps_log_grows _ _ _ _ _ _ Hsteps) as (rest & Hrest & Hev).
    apply pool_events_counts in Hev as [_ Hbox]. cbn [init_pool log] in Hrest.
    split; [|by exists pre, completion].
    rewrite Hrest, count_app, Hbox.
    assert (count is_completion (log sf) = 1%nat) as Hone.
    { rewrite Hlog, count_app, Hpre. reflexivity. }
    rewrite Hrest, count_app in Hone. exact Hone.
Qed.

(** Where the JVM starts and the configuration is valid: the log of
    a run starts with the memory option, the start of ImageJ and the
    listing, and none of the three happens again. *)
Lemma begin_setup_first
    (w : world) (ui : form) (g n : Z) :
  entry_value (memory_entry ui) 28 = Some g -> 0 < g ->
  entry_value (process_entry ui) 2 = Some n -> 0 < n ->
  (exists log, run_conversion w ui log)
  /\ forall log, run_conversion w ui log ->
       exists rest,
         log = [EvAddOption g; EvImagejInit; EvListdir (vsi_folder_entry ui)] ++ rest
         /\ count is_setup rest = 0%nat.
Proof.
  intros Hg Hgpos Hn Hnpos. split; [apply run_exists|]. intros log Hrun.
  destruct (listdir w (vsi_folder_entry ui)) as [names|e] eqn:Hls.
  - pose proof (begin_valid w ui g n names Hg Hgpos Hn Hnpos Hls) as Hb.
    destruct (discover names) as [|f fs] eqn:Hd.
    + apply (run_conversion_stopped _ _ _ Hb) in Hrun as ->. by exists [no_files].
    + destruct (proj1 (run_conversion_running _ _ _ _ Hb log) Hrun)
        as (sf & Hsteps & _ & Hl).
      subst log.
      destruct (steps_log_grows _ _ _ _ _ _ Hsteps) as (rest & Hrest & Hev).
      exists rest. split; [done|]. by apply pool_events_counts in Hev as [? _].
  - assert (run_conversion_begin w ui
            = Crashed [EvAddOption g; EvImagejInit; EvListdir (vsi_folder_entry ui)] e)
      as Hb.
    { unfold run_conversion_begin.
      rewrite (proj2 (positive_int_inl _ _ _ g)) by done.
      rewrite (proj2 (positive_int_inl _ _ _ n)) by done.
      by rewrite Hls. }
    apply (run_conversion_crashed _ _ _ _ Hb) in Hrun as ->. by exists [].
Qed.

Section Handler.

Variable w : world.
Variable ui : form.

Lemma handler_started : run_conversion_handler jvm_ok w ui = run_conversion_begin w ui.
Proof. reflexivity. Qed.

Lemma handler_run_started (log : list event) :
  handler_run jvm_ok w ui log <-> run_conversion w ui log.
Proof.
  split.
  - destruct 1 as [l Hb|l e Hb|n s0 sf Hb Hsteps Hdone]; rewrite handler_started in Hb.
    + by apply run_stopped.
    + by eapply run_crashed.
    + by eapply run_pool.
  - destruct 1 as [l Hb|l e Hb|n s0 sf Hb Hsteps Hdone]; rewrite <- handler_started in Hb.
    + by apply handler_stopped.
    + by eapply handler_crashed.
    + by eapply handler_pool.
Qed.

Lemma jvm_started_or_not (j : jvm) : j = jvm_ok \/ j <> jvm_ok.
Proof. destruct j as [[[]|e1] [[]|e2]]; [by left|by right..]. Qed.

(** What the handler does when the JVM does not start. *)
Lemma handler_jvm_fails (j : jvm) :
  j <> jvm_ok ->
  (exists box, is_box box = true
               /\ run_conversion_handler j w ui = Stopped [box]
               /\ run_conversion_begin w ui = Stopped [box])
  \/ (exists g n e,
        entry_value (memory_entry ui) 28 = Some g /\ 0 < g
        /\ entry_value (process_entry ui) 2 = Some n /\ 0 < n
        /\ run_conversion_handler j w ui
           = Crashed (match add_option_result j with
                      | Raise _ => [EvAddOption g]
                      | Ok _ => [EvAddOption g; EvImagejInit]
                      end) e).
Proof.
  intros Hj. unfold run_conversion_handler, run_conversion_begin.
  destruct (positive_int (memory_entry ui) 28 _) as [g|ve] eqn:Hm;
    [|left; exists (EvCritical "Input Error" "Invalid memory input: " ve);
      by repeat split].
  destruct (positive_int (process_entry ui) 2 _) as [n|ve] eqn:Hp;
    [|left; exists (EvCritical "Input Error" "Invalid process input: " ve);
      by repeat split].
  apply positive_int_inl in Hm as [Hm Hgpos], Hp as [Hp Hnpos].
  right. exists g, n.
  destruct j as [[[]|e1] [[]|e2]]; cbn; [done|..];
    eexists; repeat split; done.
Qed.

Lemma handler_run_fixed (j : jvm) (l : list event) :
  (run_conversion_handler j w ui = Stopped l
   \/ exists e, run_conversion_handler j w ui = Crashed l e) ->
  forall log, handler_run j w ui log <-> log = l.
Proof.
  intros Hb log. split.
  - destruct 1 as [l' Hb'|l' e' Hb'|n s0 sf Hb' _ _];
      destruct Hb as [Hb|[e Hb]]; congruence.
  - intros ->. destruct Hb as [Hb|[e Hb]];
      [by apply handler_stopped|by eapply handler_crashed].
Qed.

End Handler.

(** X15. Pressing the button always gives a run, and a run shows at most
    one message box: none when it ends by an exception (of
    [add_option], of [imagej.init] or of [os.listdir]), else exactly
    one, as the last thing the handler does. *)
Theorem run_ends_with_its_only_box (j : jvm) (w : world) (ui : form) :
  (exists log, handler_run j w ui log)
  /\ forall log, handler_run j w ui log ->
       match run_conversion_handler j w ui with
       | Crashed _ _ => count is_box log = 0%nat
       | _ => count is_box log = 1%nat
              /\ exists pre box, log = pre ++ [box] /\ is_box box = true
       end.
Proof.
  destruct (jvm_started_or_not j) as [->|Hj].
  - destruct (begin_run_boxes w ui) as [[log Hlog] Hall]. split.
    + exists log. by apply handler_run_started.
    + intros log' Hrun. rewrite handler_started.
      by apply Hall, handler_run_started.
  - destruct (handler_jvm_fails w ui j Hj)
      as [(box & Hbox & Hb & _)|(g & n & e & _ & _ & _ & _ & Hb)].
    + split; [eexists; by apply handler_stopped|].
      intros log Hrun.
      apply (handler_run_fixed w ui j [box] (or_introl Hb) log) in Hrun.
      subst log. rewrite Hb. split; [|by exists [], box].
      unfold count. cbn. by rewrite Hbox.
    + split; [eexists; by eapply handler_crashed|].
      intros log Hrun.
      apply (handler_run_fixed w ui j _ (or_intror (ex_intro _ e Hb)) log) in Hrun.
      subst log. rewrite Hb. by destruct (add_option_result j).
Qed.

(** X16. With a valid configuration, the first thing a run does is set
    the JVM option for the validated memory.  When that call or the
    start of ImageJ raises, the run ends there.  Otherwise the start of
    ImageJ and the listing of the source folder follow, in this order,
    and none of the three happens again in the run. *)
Theorem jvm_is_set_up_once_before_all_work
    (j : jvm) (w : world) (ui : form) (g n : Z) :
  entry_value (memory_entry ui) 28 = Some g -> 0 < g ->
  entry_value (process_entry ui) 2 = Some n -> 0 < n ->
  (exists log, handler_run j w ui log)
  /\ forall log, handler_run j w ui log ->
       match add_option_result j, init_result j with
       | Raise _, _ => log = [EvAddOption g]
       | Ok _, Raise _ => log = [EvAddOption g; EvImagejInit]
       | Ok _, Ok _ =>
           exists rest,
             log = [EvAddOption g; EvImagejInit; EvListdir (vsi_folder_entry ui)]
                   ++ rest
             /\ count is_setup rest = 0%nat
       end.
Proof.
  intros Hg Hgpos Hn Hnpos.
  destruct (jvm_started_or_not j) as [->|Hj].
  - destruct (begin_setup_first w ui g n Hg Hgpos Hn Hnpos) as [[log Hlog] Hall].
    split; [exists log; by apply handler_run_started|].
    intros log' Hrun. cbn. by apply Hall, handler_run_started.
  - assert (exists e, run_conversion_handler j w ui
                      = Crashed (match add_option_result j with
                                 | Raise _ => [EvAddOption g]
                                 | Ok _ => [EvAddOption g; EvImagejInit]
                                 end) e) as [e Hb].
    { unfold run_conversion_handler.
      rewrite (proj2 (positive_int_inl _ _ _ g)) by done.
      rewrite (proj2 (positive_int_inl _ _ _ n)) by done.
      destruct j as [[[]|e1] [[]|e2]]; cbn; [done|by eexists..]. }
    split; [eexists; by eapply handler_crashed|].
    intros log Hrun.
    apply (handler_run_fixed w ui j _ (or_intror (ex_intro _ e Hb)) log) in Hrun.
    subst log. destruct j as [[[]|e1] [[]|e2]]; cbn; done.
Qed.

Lemma jvm_is_set_up_once_before_all_work_witness :
  (exists log,
      handler_run {| add_option_result := Ok tt; init_result := Raise "no Java" |}
        two_files_world (sample_form "16" "3") log)
  /\ forall log,
       handler_run {| add_option_result := Ok tt; init_result := Raise "no Java" |}
         two_files_world (sample_form "16" "3") log ->
       log = [EvAddOption 16; EvImagejInit].
Proof.
  exact (jvm_is_set_up_once_before_all_work
           {| add_option_result := Ok tt; init_result := Raise "no Java" |}
           two_files_world (sample_form "16" "3") 16 3
           eq_refl eq_refl eq_refl eq_refl).
Defined.

(** X17. In every run all files are submitted before the first result is
    notified: the log splits into a first part that holds every
    submission and no notification, and a second part that holds every
    notification and no submission. *)
Theorem all_submitted_before_first_notification
    (w : world) (ui : form) (g n : Z) (names : list string) :
  entry_value (memory_entry ui) 28 = Some g -> 0 < g ->
  entry_value (process_entry ui) 2 = Some n -> 0 < n ->
  listdir w (vsi_folder_entry ui) = Ok names ->
  (exists log, run_conversion w ui log)
  /\ forall log, run_conversion w ui log ->
       exists l1 l2,
         log = l1 ++ l2
         /\ submitted l1 = discover names /\ notified l1 = []
         /\ submitted l2 = [] /\ notified l2 ≡ₚ discover names.
Proof.
  intros Hg Hgpos Hn Hnpos Hls. split; [apply run_exists|]. intros log Hrun.
  destruct (valid_run_log w ui g n names Hg Hgpos Hn Hnpos Hls log Hrun)
    as [Hsub Hnot].
  assert (exists l1 l2, log = l1 ++ l2 /\ notifications l1 = [] /\ submitted l2 = [])
    as (l1 & l2 & -> & Hn1 & Hs2).
  { pose proof (begin_valid w ui g n names Hg Hgpos Hn Hnpos Hls) as Hb.
    destruct (discover names) as [|f fs] eqn:Hd.
    - apply (run_conversion_stopped _ _ _ Hb) in Hrun as ->.
      eexists _, []. rewrite app_nil_r. by split.
    - destruct (proj1 (run_conversion_running _ _ _ _ Hb log) Hrun)
        as (sf & Hsteps & _ & Hl).
      subst log.
      eapply (steps_phases _ _ _ _ _ _ Hsteps); [done|].
      eexists _, []. rewrite app_nil_r. by split. }
  exists l1, l2.
  assert (notified l1 = []) as Hn1'.
  { by rewrite <- notified_notifications, Hn1. }
  rewrite submitted_app, Hs2, app_nil_r in Hsub.
  rewrite notified_app, Hn1' in Hnot. done.
Qed.

Lemma all_submitted_before_first_notification_witness :
  (exists log, run_conversion two_files_world (sample_form "28" "2") log)
  /\ forall log, run_conversion two_files_world (sample_form "28" "2") log ->
       exists l1 l2,
         log = l1 ++ l2
         /\ submitted l1 = ["a.vsi"; "b.vsi"] /\ notified l1 = []
         /\ submitted l2 = [] /\ notified l2 ≡ₚ ["a.vsi"; "b.vsi"].
Proof.
  exact (all_submitted_before_first_notification two_files_world
           (sample_form "28" "2") 28 2 ["b.vsi"; "a.vsi"]
           eq_refl eq_refl eq_refl eq_refl eq_refl).
Defined.

Section Observations.

Variable w : world.
Variable max_workers : Z.
Variables vsi_folder tif_folder : string.
Context {A : Type} (obs : event -> option A).

Hypothesis obs_submit : forall f, obs (EvSubmit f) = None.
Hypothesis obs_notify : forall x, obs (notify x) = None.
Hypothesis obs_completion : obs completion = None.

(** What is observed in the log is what the ended tasks emitted, each
    task counted once, in some order. *)
Lemma steps_observed (base : list A) (s s' : pool) :
  steps w max_workers vsi_folder tif_folder s s' ->
  omap obs (log s)
    ≡ₚ base ++ flat_map (observed obs w vsi_folder tif_folder) (finished s) ->
  omap obs (log s')
    ≡ₚ base ++ flat_map (observed obs w vsi_folder tif_folder) (finished s').
Proof.
  induction 1 as [s|s s1 s2 Hstep _ IH]; [done|]. intros Hs. apply IH. clear IH.
  unfold finished in *.
  destruct Hstep as [s f rest spawn Hts Hsp Hmust | s i f q Hi Hwq
                    | s i f Hi | s l1 x l2 Hts Hdone | s Hts Hwq Hrun Hdone Hc];
    cbn [do_submit do_take do_yield do_complete done_futures results log].
  - rewrite omap_app. cbn. by rewrite obs_submit, app_nil_r.
  - done.
  - unfold do_finish, observed in *.
    destruct (run_task w vsi_folder tif_folder f) as [r fr] eqn:Hrun.
    cbn [done_futures results log].
    rewrite omap_app, Hs.
    rewrite <- (app_assoc (done_futures s)), !fmap_app. cbn [fmap list_fmap fst].
    rewrite !flat_map_app. cbn [flat_map]. rewrite Hrun. cbn [snd].
    rewrite <- !app_assoc. do 2 f_equiv.
    by rewrite (Permutation_app_comm (omap obs (out fr))), <- app_assoc.
  - rewrite omap_app. cbn. rewrite obs_notify, app_nil_r, Hs. f_equiv.
    apply Permutation_flat_map. rewrite Hdone, !fmap_app. cbn.
    rewrite <- !app_assoc. cbn [app].
    rewrite <- !Permutation_middle. by rewrite app_nil_r.
  - rewrite omap_app. cbn. by rewrite obs_completion, app_nil_r.
Qed.

End Observations.

Lemma count_success_notifications (l : list event) :
  count is_success l = count is_success (notifications l).
Proof.
  unfold count, notifications.
  induction l as [|ev l IH]; [done|]. destruct ev; cbn; by rewrite ?IH.
Qed.

Lemma notify_kind (w : world) (vsi_folder tif_folder : string)
    (x : string * result unit) :
  x.2 = (run_task w vsi_folder tif_folder x.1).1 ->
  is_failure (notify x) = options_fail w vsi_folder x.1
  /\ is_success (notify x) = negb (options_fail w vsi_folder x.1).
Proof.
  intros Hx. rewrite (task_raises_iff w vsi_folder tif_folder x.1), <- Hx.
  unfold notify. by destruct x.2 as [[]|e].
Qed.

Lemma count_notify_outcomes (w : world) (vsi_folder tif_folder : string)
    (xs : list (string * result unit)) :
  (forall x, x ∈ xs -> x.2 = (run_task w vsi_folder tif_folder x.1).1) ->
  count is_failure (notify <$> xs)
  = length (List.filter (options_fail w vsi_folder) xs.*1)
  /\ count is_success (notify <$> xs)
     = length (List.filter (fun f => negb (options_fail w vsi_folder f)) xs.*1).
Proof.
  unfold count.
  induction xs as [|x xs IH]; intros Hout; [done|].
  destruct IH as [IH1 IH2].
  { intros y Hy. apply Hout. by apply list_elem_of_further. }
  destruct (notify_kind w vsi_folder tif_folder x (Hout x (list_elem_of_here _ _)))
    as [Hf Hs].
  rewrite !fmap_cons. cbn [List.filter]. rewrite Hf, Hs.
  destruct (options_fail w vsi_folder x.1); cbn [negb length]; by rewrite IH1, IH2.
Qed.

Lemma notify_report (w : world) (vsi_folder tif_folder : string)
    (x : string * result unit) :
  x.2 = (run_task w vsi_folder tif_folder x.1).1 ->
  notify x = loop_report w vsi_folder x.1.
Proof.
  intros Hx. unfold notify, loop_report. rewrite Hx.
  destruct (run_task_cleanup w vsi_folder tif_folder x.1) as (_ & _ & Hm).
  destruct (make_options w (PyStr.path_join vsi_folder x.1)) as [[]|e].
  - destruct Hm as [-> _]. done.
  - destruct Hm as (-> & _). done.
Qed.

(** X18. What the loop reports for a file is decided by the option
    set-up alone.  The notifications of a run are, in some order and
    one per discovered file, "Error processing" with the exception of
    the set-up for each file whose options cannot be built, and
    "Processed ... successfully" for each other file. *)
Theorem notification_follows_option_setup
    (w : world) (ui : form) (g n : Z) (names : list string) :
  entry_value (memory_entry ui) 28 = Some g -> 0 < g ->
  entry_value (process_entry ui) 2 = Some n -> 0 < n ->
  listdir w (vsi_folder_entry ui) = Ok names ->
  (exists log, run_conversion w ui log)
  /\ forall log, run_conversion w ui log ->
       notifications log
       ≡ₚ loop_report w (vsi_folder_entry ui) <$> discover names
       /\ (forall f, f ∈ discover names ->
                     loop_report w (vsi_folder_entry ui) f ∈ log)
       /\ count is_failure log
          = length (List.filter (options_fail w (vsi_folder_entry ui))
                      (discover names))
       /\ count is_success log
          = length (List.filter
                      (fun f => negb (options_fail w (vsi_folder_entry ui) f))
                      (discover names)).
Proof.
  intros Hg Hgpos Hn Hnpos Hls. split; [by eapply valid_run_exists|].
  intros log Hrun.
  pose proof (begin_valid w ui g n names Hg Hgpos Hn Hnpos Hls) as Hb.
  destruct (discover names) as [|f0 fs] eqn:Hd.
  { apply (run_conversion_stopped _ _ _ Hb) in Hrun as ->.
    repeat split; try done. intros f Hf. by apply elem_of_nil in Hf. }
  rewrite <- Hd in *.
  destruct (proj1 (run_conversion_running _ _ _ _ Hb log) Hrun)
    as (sf & Hsteps & Hdone & Hl).
  subst log.
  destruct (pool_run_end w ui g n names Hnpos sf Hsteps Hdone)
    as (Hinv & Hperm & _ & _ & _).
  destruct Hinv as [_ _ Hout _ _ _ Hnot _].
  assert (forall x, x ∈ results sf ->
            x.2 = (run_task w (vsi_folder_entry ui) (tif_folder_entry ui) x.1).1)
    as Hres.
  { intros x Hx. apply Hout. apply elem_of_app. by right. }
  assert (notifications (log sf)
          ≡ₚ loop_report w (vsi_folder_entry ui) <$> discover names) as Hrep.
  { rewrite Hnot, <- Hperm, <- list_fmap_compose.
    assert (notify <$> results sf
            = (loop_report w (vsi_folder_entry ui) ∘ fst) <$> results sf) as ->;
      [|done].
    apply list_fmap_ext. intros i x Hx. cbn.
    apply (notify_report w _ (tif_folder_entry ui)), Hres.
    by eapply list_elem_of_lookup_2. }
  destruct (count_notify_outcomes _ _ _ _ Hres) as [Hfail Hsucc].
  split; [done|]. split; [|split].
  - intros f Hf. apply notifications_elem. rewrite Hrep.
    by apply list_elem_of_fmap_2.
  - rewrite count_failure_notifications, Hnot, Hfail.
    apply Permutation_length. by apply filter_perm.
  - rewrite count_success_notifications, Hnot, Hsucc.
    apply Permutation_length. by apply filter_perm.
Qed.

Lemma notification_follows_option_setup_witness :
  (exists log, run_conversion bad_options_world (sample_form "28" "2") log)
  /\ forall log, run_conversion bad_options_world (sample_form "28" "2") log ->
       notifications log
       ≡ₚ [EvErrorProcessing "a.vsi" "no reader"; EvProcessed "b.vsi"]
       /\ (forall f, f ∈ ["a.vsi"; "b.vsi"] ->
                     loop_report bad_options_world "/in" f ∈ log)
       /\ count is_failure log = 1%nat
       /\ count is_success log = 1%nat.
Proof.
  exact (notification_follows_option_setup bad_options_world (sample_form "28" "2")
           28 2 ["b.vsi"; "a.vsi"] eq_refl eq_refl eq_refl eq_refl eq_refl).
Defined.

Lemma steps_started (w : world) (n : Z) (vsi_folder tif_folder : string)
    (l0 : list event) (files : list string) (sf : pool) :
  steps w n vsi_folder tif_folder (init_pool l0 files) sf ->
  started (log sf)
  ≡ₚ started l0
     ++ flat_map (fun f => started (out (run_task w vsi_folder tif_folder f).2))
          (finished sf).
Proof.
  intros Hsteps.
  apply (steps_observed w n vsi_folder tif_folder
           (fun ev => match ev with EvOptions url => Some url | _ => None end)
           (fun _ => eq_refl)) with (s := init_pool l0 files); try done.
  - by intros [f [[]|e]].
  - cbn. by rewrite app_nil_r.
Qed.

Lemma steps_written (w : world) (n : Z) (vsi_folder tif_folder : string)
    (l0 : list event) (files : list string) (sf : pool) :
  steps w n vsi_folder tif_folder (init_pool l0 files) sf ->
  written (log sf)
  ≡ₚ written l0
     ++ flat_map (fun f => written (out (run_task w vsi_folder tif_folder f).2))
          (finished sf).
Proof.
  intros Hsteps.
  apply (steps_observed w n vsi_folder tif_folder
           (fun ev => match ev with EvImwrite url _ => Some url | _ => None end)
           (fun _ => eq_refl)) with (s := init_pool l0 files); try done.
  - by intros [f [[]|e]].
  - cbn. by rewrite app_nil_r.
Qed.

(** X19. In every run each discovered file is converted exactly once:
    the tasks started are the discovered files, each once.  Every path
    written to is the output path of a discovered file, and there are no
    more writes than files. *)
Theorem each_file_converted_once
    (w : world) (ui : form) (g n : Z) (names : list string) :
  entry_value (memory_entry ui) 28 = Some g -> 0 < g ->
  entry_value (process_entry ui) 2 = Some n -> 0 < n ->
  listdir w (vsi_folder_entry ui) = Ok names ->
  (exists log, run_conversion w ui log)
  /\ forall log, run_conversion w ui log ->
       started log ≡ₚ PyStr.path_join (vsi_folder_entry ui) <$> discover names
       /\ (length (written log) <= length (discover names))%nat
       /\ forall url, url ∈ written log ->
            exists f, f ∈ discover names
                      /\ url = PyStr.path_join (tif_folder_entry ui) (tif_name f).
Proof.
  intros Hg Hgpos Hn Hnpos Hls. split; [apply run_exists|]. intros log Hrun.
  pose proof (begin_valid w ui g n names Hg Hgpos Hn Hnpos Hls) as Hb.
  destruct (discover names) as [|f0 fs] eqn:Hd.
  { apply (run_conversion_stopped _ _ _ Hb) in Hrun as ->.
    repeat split; try done. intros url Hu. by apply elem_of_nil in Hu. }
  rewrite <- Hd in *.
  destruct (proj1 (run_conversion_running _ _ _ _ Hb log) Hrun)
    as (sf & Hsteps & Hdone & Hl).
  subst log.
  destruct (pool_run_end w ui g n names Hnpos sf Hsteps Hdone)
    as (Hinv & Hperm & _ & _ & _).
  destruct Hinv as [_ _ _ _ _ _ _ Hcomp]. rewrite Hdone in Hcomp.
  destruct Hcomp as (_ & _ & _ & Hdf & _).
  assert (finished sf ≡ₚ discover names) as Hfin.
  { unfold finished. by rewrite Hdf. }
  pose proof (steps_started _ _ _ _ _ _ _ Hsteps) as Hst.
  pose proof (steps_written _ _ _ _ _ _ _ Hsteps) as Hwr.
  change (started [EvAddOption g; EvImagejInit; EvListdir (vsi_folder_entry ui)])
    with (@nil string) in Hst.
  change (written [EvAddOption g; EvImagejInit; EvListdir (vsi_folder_entry ui)])
    with (@nil string) in Hwr.
  cbn [app] in Hst, Hwr. rewrite Hfin in Hst, Hwr.
  split; [|split].
  - rewrite Hst. clear.
    induction (discover names) as [|f fs IH]; [done|]. cbn [flat_map].
    rewrite (task_started w (vsi_folder_entry ui) (tif_folder_entry ui) f).
    cbn. by rewrite IH.
  - rewrite Hwr. clear.
    induction (discover names) as [|f fs IH]; [done|]. cbn [flat_map].
    rewrite length_app.
    pose proof (task_written_once w (vsi_folder_entry ui) (tif_folder_entry ui) f).
    cbn [length]. lia.
  - intros url Hu. rewrite Hwr in Hu.
    apply list_elem_of_In, in_flat_map in Hu as (f & Hf & Hu).
    exists f. split; [by apply list_elem_of_In|].
    apply (task_written w (vsi_folder_entry ui) (tif_folder_entry ui)).
    by apply list_elem_of_In.
Qed.

Lemma each_file_converted_once_witness :
  (exists log, run_conversion two_files_world (sample_form "28" "2") log)
  /\ forall log, run_conversion two_files_world (sample_form "28" "2") log ->
       started log ≡ₚ ["/in/a.vsi"; "/in/b.vsi"]
       /\ (length (written log) <= 2)%nat
       /\ forall url, url ∈ written log ->
            exists f, f ∈ ["a.vsi"; "b.vsi"]
                      /\ url = PyStr.path_join "/out" (tif_name f).
Proof.
  exact (each_file_converted_once two_files_world (sample_form "28" "2")
           28 2 ["b.vsi"; "a.vsi"] eq_refl eq_refl eq_refl eq_refl eq_refl).
Defined.

Section OneWorker.

Variable w : world.
Variables vsi_folder tif_folder : string.
Variable files : list string.
Variable base : list string.

Local Abbreviation in_order := (in_order vsi_folder files base).

Lemma step_in_order (s s' : pool) :
  step w 1 vsi_folder tif_folder s s' -> in_order s -> in_order s'.
Proof.
  intros Hstep (Hlen & fin & Hfiles & Hlog).
  destruct Hstep as [s f rest spawn Hts Hsp Hmust | s i f q Hi Hwq
                    | s i f Hi | s l1 x l2 Hts Hdone | s Hts Hwq Hrun Hdone Hc];
    unfold in_order, running in *.
  - cbn [do_submit threads work_queue to_submit log]. split.
    + destruct spawn; [|done]. rewrite length_app. cbn. specialize (Hsp eq_refl). lia.
    + exists fin. split.
      * assert (omap id (if spawn then threads s ++ [None] else threads s)
                = omap id (threads s)) as ->.
        { destruct spawn; [apply running_spawn|done]. }
        rewrite <- Hfiles, Hts, <- !app_assoc. done.
      * unfold started in *. rewrite omap_app. cbn. by rewrite app_nil_r.
  - cbn [do_take threads work_queue to_submit log].
    destruct (threads s) as [|t [|t' ts]] eqn:Hth; [done| |cbn in Hlen; lia].
    destruct i as [|i]; [|done]. cbn in Hi. injection Hi as ->.
    split; [done|]. exists fin. split; [|done].
    rewrite <- Hfiles, Hwq. done.
  - unfold do_finish.
    pose proof (task_started w vsi_folder tif_folder f) as Hst.
    destruct (run_task w vsi_folder tif_folder f) as [r fr].
    cbn [threads work_queue to_submit log snd] in *.
    destruct (threads s) as [|t [|t' ts]] eqn:Hth; [done| |cbn in Hlen; lia].
    destruct i as [|i]; [|done]. cbn in Hi. injection Hi as ->.
    split; [done|]. exists (fin ++ [f]). split.
    + rewrite <- Hfiles, <- !app_assoc. done.
    + unfold started in *. rewrite omap_app, Hlog, Hst, fmap_app, <- app_assoc. done.
  - cbn [do_yield threads work_queue to_submit log]. split; [done|].
    exists fin. split; [done|].
    unfold started in *. rewrite omap_app, Hlog.
    destruct x as [f [[]|e]]; cbn; by rewrite app_nil_r.
  - cbn [do_complete threads work_queue to_submit log]. split; [done|].
    exists fin. split; [done|].
    unfold started in *. rewrite omap_app, Hlog. cbn. by rewrite app_nil_r.
Qed.

Lemma steps_in_order (s s' : pool) :
  steps w 1 vsi_folder tif_folder s s' -> in_order s -> in_order s'.
Proof. induction 1; eauto using step_in_order. Qed.

End OneWorker.

(** X20. With one worker the files are converted one after the other in
    the sorted order of their names: the starts of the tasks appear in
    the log in exactly the order of discovery. *)
Theorem one_worker_converts_in_sorted_order
    (w : world) (ui : form) (g : Z) (names : list string) :
  entry_value (memory_entry ui) 28 = Some g -> 0 < g ->
  entry_value (process_entry ui) 2 = Some 1 ->
  listdir w (vsi_folder_entry ui) = Ok names ->
  (exists log, run_conversion w ui log)
  /\ forall log, run_conversion w ui log ->
       started log = PyStr.path_join (vsi_folder_entry ui) <$> discover names.
Proof.
  intros Hg Hgpos Hn Hls. split; [apply run_exists|]. intros log Hrun.
  pose proof (begin_valid w ui g 1 names Hg Hgpos Hn ltac:(lia) Hls) as Hb.
  destruct (discover names) as [|f0 fs] eqn:Hd.
  { by apply (run_conversion_stopped _ _ _ Hb) in Hrun as ->. }
  rewrite <- Hd in *.
  destruct (proj1 (run_conversion_running _ _ _ _ Hb log) Hrun)
    as (sf & Hsteps & Hdone & Hl).
  subst log.
  destruct (pool_run_end w ui g 1 names ltac:(lia) sf Hsteps Hdone)
    as (Hinv & _).
  destruct Hinv as [_ _ _ _ _ _ _ Hcomp]. rewrite Hdone in Hcomp.
  destruct Hcomp as (Hts & Hwq & Hrun' & _).
  destruct (steps_in_order w _ (tif_folder_entry ui) (discover names) [] _ _ Hsteps)
    as (_ & fin & Hfiles & Hlog).
  { split; [cbn; lia|]. exists []. by split. }
  rewrite Hts, Hwq, Hrun', !app_nil_r in Hfiles. by rewrite Hlog, Hfiles.
Qed.

Lemma one_worker_converts_in_sorted_order_witness :
  (exists log, run_conversion two_files_world (sample_form "28" "1") log)
  /\ forall log, run_conversion two_files_world (sample_form "28" "1") log ->
       started log = ["/in/a.vsi"; "/in/b.vsi"].
Proof.
  exact (one_worker_converts_in_sorted_order two_files_world (sample_form "28" "1")
           28 ["b.vsi"; "a.vsi"] eq_refl eq_refl eq_refl eq_refl).
Defined.
